(** * datacube.testutils.io: raster read / write / reproject helpers

    A shallow embedding of [datacube/testutils/io.py] and the properties its
    specification states about it.

    The module is a thin layer over a raster I/O backend (rasterio), numpy
    and the datacube storage driver.  The Python functions are embedded as
    computations in a small monad that threads the file system, collects the
    calls made to the outside world and propagates Python exceptions.  The
    backend is a capability interface ([RasterBackend]); its contract is a
    separate class of laws ([RasterBackendLaws]), and a small in-memory
    backend ([Ref]) inhabits both. *)

From Stdlib Require Import ZArith Lia DecimalString.
From stdpp Require Import gmap strings list fin_maps pretty.

Local Open Scope string_scope.
Local Open Scope Z_scope.
Local Open Scope list_scope.

(** ** Data model *)

(** [affine.Affine(a, b, c, d, e, f)]: the six coefficients of the
    pixel-to-world transform.  Coefficients are integers in this model. *)
Record Affine := mkAffine {
  aff_a : Z; aff_b : Z; aff_c : Z;
  aff_d : Z; aff_e : Z; aff_f : Z }.

(** The backend's CRS object, as far as the module looks at it:
    [crs.is_epsg_code], [crs.to_epsg()] and [crs.wkt]. *)
Record RioCRS := mkRioCRS {
  is_epsg_code : bool;
  to_epsg : option Z;
  wkt : string }.

(** Modelled from the spec: [datacube.utils.geometry.CRS], which is not part
    of this file.  The spec gives a grid descriptor's CRS as a string (an
    [epsg:<code>] form or well-known text); [CRS s] wraps that string and
    [str(crs)] returns it. *)
Record CRS := mkCRS { crs_str : string }.

(** Modelled from the spec: [datacube.utils.geometry.GeoBox], which is not
    part of this file.  The spec describes it as the immutable tuple (width,
    height, affine transform, CRS) with [shape = (height, width)]; the
    constructor takes its arguments in the order of the call
    [GeoBox(w, h, transform, crs)]. *)
Record GeoBox := mkGeoBox {
  gb_width : Z;
  gb_height : Z;
  gb_transform : Affine;
  gb_crs : CRS }.

Definition gb_shape (g : GeoBox) : list Z := [gb_height g; gb_width g].

(** Python values that occur in option dictionaries and metadata records. *)
Inductive pyval :=
| VNone
| VBool (b : bool)
| VInt (n : Z)
| VStr (s : string)
| VShape (dims : list Z)
| VAffine (A : Affine)
| VRioCrs (c : RioCRS)
| VGeoBox (g : GeoBox)
| VPath (p : string).

(** A Python [dict] with string keys: option dictionaries ([rio_opts],
    keyword arguments) and metadata records ([dst.meta], [src.meta]). *)
Abbreviation pydict := (gmap string pyval).

(** [numpy.ndarray]: dtype name, shape and the elements in row-major order.
    Elements are integers; floating point samples are outside the model. *)
Record ndarray := mkArray {
  dtype : string;
  shape : list Z;
  data : list Z }.

Definition ndim (a : ndarray) : nat := length (shape a).

Definition shape_size (s : list Z) : Z := fold_right Z.mul 1 s.

(** Width in bits and signedness of the integer dtypes. *)
Definition int_dtype (d : string) : option (bool * Z) :=
  if String.eqb d "uint8" then Some (false, 8)
  else if String.eqb d "int8" then Some (true, 8)
  else if String.eqb d "uint16" then Some (false, 16)
  else if String.eqb d "int16" then Some (true, 16)
  else if String.eqb d "uint32" then Some (false, 32)
  else if String.eqb d "int32" then Some (true, 32)
  else if String.eqb d "uint64" then Some (false, 64)
  else if String.eqb d "int64" then Some (true, 64)
  else None.

(** numpy's unsafe cast of an integer to a dtype: two's complement
    wrap-around for the integer dtypes, the value itself otherwise. *)
Definition np_cast (d : string) (v : Z) : Z :=
  match int_dtype d with
  | Some (false, w) => v mod 2 ^ w
  | Some (true, w) => (v + 2 ^ (w - 1)) mod 2 ^ w - 2 ^ (w - 1)
  | None => v
  end.

(** An array as numpy can hold it: no negative dimension, as many elements
    as the shape says, every element representable in the dtype. *)
Definition array_valid (a : ndarray) : Prop :=
  Forall (fun n => 0 <= n) (shape a) /\
  length (data a) = Z.to_nat (shape_size (shape a)) /\
  Forall (fun v => np_cast (dtype a) v = v) (data a).

(** ** Exceptions and results *)

Inductive exn :=
| ValueError (msg : string)
| IOError (msg : string)
| KeyError (key : string)
| TypeError (msg : string)
| AttributeError (msg : string)
| IndexError (msg : string)
| RasterioError (msg : string).

Inductive result (A : Type) :=
| Ok (a : A)
| Raise (e : exn).
Arguments Ok {A} a.
Arguments Raise {A} e.

(** [numpy.full(shape, fill_value, dtype=dtype)]: negative dimensions are a
    [ValueError]; the fill value is cast to the dtype. *)
Definition np_full (s : list Z) (fill_value : Z) (d : string) : result ndarray :=
  if forallb (fun n => 0 <=? n) s
  then Ok (mkArray d s (replicate (Z.to_nat (shape_size s)) (np_cast d fill_value)))
  else Raise (ValueError "negative dimensions are not allowed").

(** [range(lo, hi)] *)
Definition py_range (lo hi : Z) : list Z :=
  map (fun i => lo + Z.of_nat i) (seq 0 (Z.to_nat (hi - lo))).

(** ['{}'.format(x)] for an optional integer. *)
Definition py_format (x : option Z) : string :=
  match x with
  | Some n => pretty n
  | None => "None"
  end.

(** The [indexes] argument of [dst.write(pix, band)]: one band number or a
    tuple of band numbers. *)
Inductive band_sel :=
| BandIndex (i : Z)
| BandIndexes (l : list Z).

(** ** The raster backend

    The operations of rasterio the module calls, on the decoded content of a
    raster file. *)
Class RasterBackend := {
  Dataset : Type;
  (** [rasterio.open(path, 'w', driver='GTiff', ..)] with the options [opts] *)
  ds_create : pydict -> result Dataset;
  (** what a creation that raises leaves at the path: nothing, or a new
      file, a raster the backend can open or some other content *)
  ds_create_partial : pydict -> option (Dataset + string);
  (** [dst.write(pix, band)] *)
  ds_write : Dataset -> ndarray -> band_sel -> result Dataset;
  (** [src.meta], [src.count], [src.dtypes], [src.nodata] *)
  ds_meta : Dataset -> pydict;
  ds_count : Dataset -> Z;
  ds_dtypes : Dataset -> list string;
  ds_nodata : Dataset -> option Z;
  (** [src.read(i, ..)] with [Some i], [src.read(..)] with [None]; the
      keyword arguments are passed as a dictionary *)
  ds_read : Dataset -> option Z -> pydict -> result ndarray;
  (** [rasterio.warp.reproject(rasterio.band(src, i), dest, dst_nodata=..,
      dst_transform=.., dst_crs=.., ..)]: the destination after the call *)
  ds_reproject : Dataset -> Z -> ndarray -> Z -> Affine -> string -> pydict -> result ndarray;
  (** whether pixel [i] (row-major) of a destination of the given shape,
      transform and CRS lies in the reprojected footprint of the source *)
  ds_footprint : Dataset -> list Z -> Affine -> string -> pydict -> nat -> bool
}.

(** What a path of the file system holds. *)
Inductive file `{RasterBackend} :=
| RasterFile (d : Dataset)
| OtherFile (content : string).

(** The file a failing creation left behind. *)
Definition partial_file `{RasterBackend} (r : Dataset + string) : file :=
  match r with
  | inl d => RasterFile d
  | inr content => OtherFile content
  end.

(** Modelled from the spec: [datacube.storage.storage.RasterFileDataSource],
    which is not part of this file.  The spec lists [path], [band] and
    [fallback_nodata] as what the reading entry point hands to its data
    source; the constructor stores them. *)
Record RasterFileDataSource := mkSource {
  src_path : string;
  src_band : Z;
  src_fallback_nodata : option Z }.

(** Calls that leave the module, in the order they are made. *)
Inductive io_event :=
| EvExists (p : string)
| EvUnlink (p : string)
| EvCreate (p : string) (opts : pydict)
| EvWrite (p : string) (pix : ndarray) (band : band_sel)
| EvOpen (p : string)
| EvRead (p : string) (indexes : option Z) (kw : pydict)
| EvReproject (p : string) (dest : ndarray) (dst_nodata : Z)
              (dst_transform : Affine) (dst_crs : string) (kw : pydict)
| EvSourceOpen (s : RasterFileDataSource)
| EvFuse (sources : list RasterFileDataSource) (dest : ndarray) (gbox : GeoBox)
         (dst_nodata : Z) (resampling : string).

(** What a call leaves behind: its result or exception, the file system
    after it and the outside calls it made. *)
Record outcome `{RasterBackend} (A : Type) := mkOutcome {
  res : result A;
  fs_after : gmap string file;
  events : list io_event }.
Arguments mkOutcome {_ A} res fs_after events.
Arguments res {_ A} o.
Arguments fs_after {_ A} o.
Arguments events {_ A} o.

(** The parts of the datacube storage driver the module calls; they live in
    [datacube.storage], outside this file, and are taken as parameters. *)
Class StorageDriver `{RasterBackend} := {
  Reader : Type;
  (** [rdr.dtype], [rdr.nodata] and [rdr_geobox(rdr)] of an opened reader *)
  rdr_dtype : Reader -> string;
  rdr_nodata : Reader -> option Z;
  rdr_geobox : Reader -> GeoBox;
  (** [source.open()] *)
  source_open : gmap string file -> RasterFileDataSource -> result Reader;
  (** [reproject_and_fuse(sources, dest, gbox, dst_nodata, resampling=..)]:
      the destination after the call *)
  reproject_and_fuse : gmap string file -> list RasterFileDataSource -> ndarray ->
                       GeoBox -> Z -> string -> result ndarray
}.

(** ** The module *)

Section Model.
Context `{RasterBackend}.

(** *** Computations: file system in, outcome out *)

Definition M (A : Type) : Type := gmap string file -> outcome A.

Definition ret {A} (a : A) : M A := fun fs => mkOutcome (Ok a) fs [].

Definition raise {A} (e : exn) : M A := fun fs => mkOutcome (Raise e) fs [].

Definition bind {A B} (m : M A) (k : A -> M B) : M B := fun fs =>
  let o := m fs in
  match res o with
  | Ok a =>
      let o' := k a (fs_after o) in
      mkOutcome (res o') (fs_after o') (events o ++ events o')
  | Raise e => mkOutcome (Raise e) (fs_after o) (events o)
  end.

Definition lift {A} (r : result A) : M A := fun fs => mkOutcome r fs [].

Definition emit (ev : io_event) : M unit := fun fs => mkOutcome (Ok tt) fs [ev].

Local Notation "x <- m ;; k" := (bind m (fun x => k))
  (at level 100, m at next level, right associativity).
Local Notation "m ;;; k" := (bind m (fun _ => k))
  (at level 100, right associativity).

(** *** Bindings of the outside calls *)

(** [Path.exists()] *)
Definition path_exists (p : string) : M bool := fun fs =>
  mkOutcome (Ok (bool_decide (is_Some (fs !! p)))) fs [EvExists p].

(** [Path.unlink()] *)
Definition path_unlink (p : string) : M unit := fun fs =>
  match fs !! p with
  | Some _ => mkOutcome (Ok tt) (delete p fs) [EvUnlink p]
  | None => mkOutcome (Raise (IOError "No such file or directory")) fs [EvUnlink p]
  end.

(** [rasterio.open(path, 'w', driver='GTiff', ..)] with the options handed
    over as keywords: a second [driver] among them is a [TypeError] of the
    call itself; otherwise the backend creates the file.  A creation that
    raises may have put a new file at the path all the same. *)
Definition rasterio_open_w (p : string) (opts : pydict) : M Dataset := fun fs =>
  match opts !! "driver" with
  | Some _ => mkOutcome (Raise (TypeError "multiple values for keyword argument 'driver'")) fs []
  | None =>
      match ds_create opts with
      | Ok d => mkOutcome (Ok d) (<[p := RasterFile d]> fs) [EvCreate p opts]
      | Raise e =>
          mkOutcome (Raise e)
            match ds_create_partial opts with
            | Some r => <[p := partial_file r]> fs
            | None => fs
            end
            [EvCreate p opts]
      end
  end.

(** [dst.write(pix, band)] on the dataset open for writing at [p] *)
Definition dataset_write (p : string) (d : Dataset) (pix : ndarray) (band : band_sel)
  : M Dataset := fun fs =>
  match ds_write d pix band with
  | Ok d' => mkOutcome (Ok d') (<[p := RasterFile d']> fs) [EvWrite p pix band]
  | Raise e => mkOutcome (Raise e) fs [EvWrite p pix band]
  end.

(** [rasterio.open(path, 'r')] *)
Definition rasterio_open_r (p : string) : M Dataset := fun fs =>
  match fs !! p with
  | Some (RasterFile d) => mkOutcome (Ok d) fs [EvOpen p]
  | Some (OtherFile _) =>
      mkOutcome (Raise (RasterioError "not recognized as a supported file format")) fs [EvOpen p]
  | None => mkOutcome (Raise (RasterioError "No such file or directory")) fs [EvOpen p]
  end.

(** [src.read(..)] *)
Definition dataset_read (p : string) (d : Dataset) (indexes : option Z) (kw : pydict)
  : M ndarray :=
  emit (EvRead p indexes kw) ;;; lift (ds_read d indexes kw).

(** [reproject(src_band, pix, dst_nodata=.., dst_transform=.., dst_crs=..,
    ..)] with the remaining keywords from [kw]: a keyword given twice is a
    [TypeError] of the call itself. *)
Definition warp_reproject (p : string) (src_band : Dataset * Z) (pix : ndarray)
    (dst_nodata : Z) (dst_transform : Affine) (dst_crs : string) (kw : pydict)
  : M ndarray :=
  match kw !! "dst_nodata", kw !! "dst_transform", kw !! "dst_crs" with
  | None, None, None =>
      emit (EvReproject p pix dst_nodata dst_transform dst_crs kw) ;;;
      lift (ds_reproject (fst src_band) (snd src_band) pix dst_nodata dst_transform dst_crs kw)
  | _, _, _ => raise (TypeError "multiple values for keyword argument")
  end.

(** *** [dc_crs_from_rio] *)
Definition dc_crs_from_rio (crs : RioCRS) : CRS :=
  if is_epsg_code crs
  then mkCRS ("epsg:" +:+ py_format (to_epsg crs))
  else mkCRS (wkt crs).

(** *** [rio_geobox] *)
Definition rio_geobox (meta : pydict) : result (option GeoBox) :=
  match meta !! "crs", meta !! "transform" with
  | Some vcrs, Some transform =>
      match meta !! "height" with
      | None => Raise (KeyError "height")
      | Some h =>
          match meta !! "width" with
          | None => Raise (KeyError "width")
          | Some w =>
              match vcrs with
              | VRioCrs c =>
                  let crs := dc_crs_from_rio c in
                  match w, h, transform with
                  | VInt w, VInt h, VAffine transform =>
                      Ok (Some (mkGeoBox w h transform crs))
                  | _, _, _ => Raise (TypeError "GeoBox")
                  end
              | _ => Raise (AttributeError "is_epsg_code")
              end
          end
      end
  | _, _ => Ok None
  end.

(** A grid descriptor, or [None], as a dictionary value. *)
Definition gbox_val (g : option GeoBox) : pyval :=
  match g with
  | Some g => VGeoBox g
  | None => VNone
  end.

(** *** [write_gtiff] *)

(** The option dictionary of lines 81 to 98: the defaults, the tiling
    options when a block size is asked for, the nodata value when given,
    and last the caller's extra options, which replace what is there. *)
Definition gtiff_rio_opts (w h nbands : Z) (dtype_name : string) (crs : pyval)
    (A : Affine) (nodata : option Z) (blocksize : option Z)
    (extra_rio_opts : pydict) : pydict :=
  let rio_opts : pydict :=
    <["width" := VInt w]> (<["height" := VInt h]> (<["count" := VInt nbands]> (
    <["dtype" := VStr dtype_name]> (<["crs" := crs]> (<["transform" := VAffine A]> (
    <["predictor" := VInt 2]> (<["compress" := VStr "DEFLATE"]> ∅))))))) in
  let rio_opts :=
    match blocksize with
    | Some blocksize =>
        <["blockysize" := VInt (Z.min blocksize h)]> (
        <["blockxsize" := VInt (Z.min blocksize w)]> (
        <["tiled" := VBool true]> rio_opts))
    | None => rio_opts
    end in
  let rio_opts :=
    match nodata with
    | Some nodata => <["nodata" := VInt nodata]> rio_opts
    | None => rio_opts
    end in
  extra_rio_opts ∪ rio_opts.

Definition write_gtiff (fname : string) (pix : ndarray) (crs : pyval)
    (resolution offset : Z * Z) (nodata : option Z) (overwrite : bool)
    (blocksize : option Z) (extra_rio_opts : pydict) : M pydict :=
  dims <- match shape pix with
          | [h; w] => ret (1, h, w, BandIndex 1)
          | [nbands; h; w] => ret (nbands, h, w, BandIndexes (py_range 1 (nbands + 1)))
          | _ => raise (ValueError "Need 2d or 3d ndarray on input")
          end ;;
  let '(nbands, h, w, band) := dims in
  present <- path_exists fname ;;
  (if present
   then if overwrite then path_unlink fname else raise (IOError "File exists")
   else ret tt) ;;;
  let '(sx, sy) := resolution in
  let '(tx, ty) := offset in
  let A := mkAffine sx 0 tx 0 sy ty in
  let rio_opts :=
    gtiff_rio_opts w h nbands (dtype pix) crs A nodata blocksize extra_rio_opts in
  dst <- rasterio_open_w fname rio_opts ;;
  dst <- dataset_write fname dst pix band ;;
  let meta := ds_meta dst in
  gbox <- lift (rio_geobox meta) ;;
  let meta := <["gbox" := gbox_val gbox]> meta in
  let meta := <["path" := VPath fname]> meta in
  ret meta.

(** *** [rio_slurp_reproject] *)
Definition rio_slurp_reproject (fname : string) (gbox : GeoBox) (dtype : option string)
    (dst_nodata : option Z) (kw : pydict) : M (ndarray * pydict) :=
  src <- rasterio_open_r fname ;;
  let src_band := (src, 1) in
  dtype <- match dtype with
           | None =>
               match ds_dtypes src with
               | d :: _ => ret d
               | [] => raise (IndexError "tuple index out of range")
               end
           | Some d => ret d
           end ;;
  let dst_nodata :=
    match dst_nodata with
    | None => ds_nodata src
    | Some v => Some v
    end in
  let dst_nodata :=
    match dst_nodata with
    | None => 0
    | Some v => v
    end in
  pix <- lift (np_full (gb_shape gbox) dst_nodata dtype) ;;
  pix <- warp_reproject fname src_band pix dst_nodata
           (gb_transform gbox) (crs_str (gb_crs gbox)) kw ;;
  let meta := ds_meta src in
  src_gbox <- lift (rio_geobox meta) ;;
  let meta := <["src_gbox" := gbox_val src_gbox]> meta in
  let meta := <["path" := VStr fname]> meta in
  let meta := <["gbox" := VGeoBox gbox]> meta in
  ret (pix, meta).

(** *** [rio_slurp_read] *)
Definition rio_slurp_read (fname : string) (out_shape : option (list Z)) (kw : pydict)
  : M (ndarray * pydict) :=
  let kw :=
    match out_shape with
    | Some out_shape => <["out_shape" := VShape out_shape]> kw
    | None => kw
    end in
  src <- rasterio_open_r fname ;;
  data <- (if ds_count src =? 1
           then dataset_read fname src (Some 1) kw
           else dataset_read fname src None kw) ;;
  let meta := ds_meta src in
  gbox <- lift (rio_geobox meta) ;;
  let meta := <["gbox" := gbox_val gbox]> meta in
  let meta := <["path" := VStr fname]> meta in
  ret (data, meta).

(** *** [dc_read] *)
Context `{!StorageDriver}.

Definition source_open_call (source : RasterFileDataSource) : M Reader := fun fs =>
  mkOutcome (source_open fs source) fs [EvSourceOpen source].

Definition reproject_and_fuse_call (sources : list RasterFileDataSource)
    (im : ndarray) (gbox : GeoBox) (dst_nodata : Z) (resampling : string) : M ndarray :=
  fun fs =>
    mkOutcome (reproject_and_fuse fs sources im gbox dst_nodata resampling) fs
              [EvFuse sources im gbox dst_nodata resampling].

Definition dc_read (path : string) (band : Z) (gbox : option GeoBox)
    (resampling : string) (dtype : option string) (dst_nodata : option Z)
    (fallback_nodata : option Z) : M ndarray :=
  let source := mkSource path band fallback_nodata in
  rdr <- source_open_call source ;;
  let dtype :=
    match dtype with
    | None => rdr_dtype rdr
    | Some d => d
    end in
  let gbox :=
    match gbox with
    | None => rdr_geobox rdr
    | Some g => g
    end in
  let dst_nodata :=
    match dst_nodata with
    | None => rdr_nodata rdr
    | Some v => Some v
    end in
  let dst_nodata :=
    match dst_nodata with
    | None => 0
    | Some v => v
    end in
  im <- lift (np_full (gb_shape gbox) dst_nodata dtype) ;;
  im <- reproject_and_fuse_call [source] im gbox dst_nodata resampling ;;
  ret im.
End Model.

(** ** [rio_slurp]

    The dispatcher takes its arguments as Python passes them: the positional
    ones in a list, the keyword ones in a dictionary.  It hands them on with
    [f(fname, *args, ..)] and the keywords, so the model has the binding of
    arguments to the parameters of the two readers, as the [def] lines of the
    readers fix it. *)

Section Dispatcher.
Context `{RasterBackend}.

(** Binding of positional arguments and keywords to the named parameters of
    a function that collects the remaining keywords: for each parameter the
    value given, if any, and the keywords left over.  A parameter given both
    ways and a positional argument without a parameter are [TypeError]s of
    the call. *)
Fixpoint bind_params (names : list string) (args : list pyval) (kw : pydict)
  : result (list (option pyval) * pydict) :=
  match names, args with
  | [], [] => Ok ([], kw)
  | [], _ :: _ => Raise (TypeError "too many positional arguments")
  | n :: names', a :: args' =>
      match kw !! n with
      | Some _ => Raise (TypeError "multiple values for argument")
      | None =>
          match bind_params names' args' kw with
          | Ok (vs, kw') => Ok (Some a :: vs, kw')
          | Raise e => Raise e
          end
      end
  | n :: names', [] =>
      match bind_params names' [] (delete n kw) with
      | Ok (vs, kw') => Ok (kw !! n :: vs, kw')
      | Raise e => Raise e
      end
  end.

(** The value of the [i]-th parameter, [None] being its default. *)
Definition param (vs : list (option pyval)) (i : nat) : pyval :=
  match vs !! i with
  | Some (Some v) => v
  | _ => VNone
  end.

(** [rio_slurp_read(fname, *args, ..)] with the keywords [kw], against
    [def rio_slurp_read(fname, out_shape=None, ..)].  Whatever value
    [out_shape] has, the body only asks whether it is [None] and puts it
    among the keywords when it is not. *)
Definition call_rio_slurp_read (fname : string) (args : list pyval) (kw : pydict)
  : M (ndarray * pydict) :=
  match bind_params ["fname"; "out_shape"] (VStr fname :: args) kw with
  | Raise e => raise e
  | Ok (vs, kw') =>
      match param vs 1 with
      | VNone => rio_slurp_read fname None kw'
      | out_shape => rio_slurp_read fname None (<["out_shape" := out_shape]> kw')
      end
  end.

(** The argument values the model of [rio_slurp_reproject] is typed for: a
    grid descriptor, a dtype name or [None], an integer or [None]. *)
Definition as_gbox (v : pyval) : option GeoBox :=
  match v with
  | VGeoBox g => Some g
  | _ => None
  end.

Definition as_dtype (v : pyval) : option (option string) :=
  match v with
  | VNone => Some None
  | VStr d => Some (Some d)
  | _ => None
  end.

Definition as_nodata (v : pyval) : option (option Z) :=
  match v with
  | VNone => Some None
  | VInt n => Some (Some n)
  | _ => None
  end.

(** [rio_slurp_reproject(fname, *args, ..)] with the keywords [kw], against
    [def rio_slurp_reproject(fname, gbox, dtype=None, dst_nodata=None, ..)].
    The result is [None] when an argument has a value of another type than
    the model of [rio_slurp_reproject] takes; what Python does with such a
    value is not modelled. *)
Definition call_rio_slurp_reproject (fname : string) (args : list pyval) (kw : pydict)
  : option (M (ndarray * pydict)) :=
  match bind_params ["fname"; "gbox"; "dtype"; "dst_nodata"] (VStr fname :: args) kw with
  | Raise e => Some (raise e)
  | Ok (vs, kw') =>
      match vs !! 1%nat with
      | Some (Some gbox) =>
          match as_gbox gbox, as_dtype (param vs 2), as_nodata (param vs 3) with
          | Some gbox, Some dtype, Some dst_nodata =>
              Some (rio_slurp_reproject fname gbox dtype dst_nodata kw')
          | _, _, _ => None
          end
      | _ => Some (raise (TypeError "missing required argument 'gbox'"))
      end
  end.

(** [rio_slurp] *)
Definition rio_slurp (fname : string) (args : list pyval) (kw : pydict)
  : option (M (ndarray * pydict)) :=
  match args with
  | [] =>
      match kw !! "gbox" with
      | Some _ => call_rio_slurp_reproject fname [] kw
      | None => Some (call_rio_slurp_read fname [] kw)
      end
  | VGeoBox _ :: _ => call_rio_slurp_reproject fname args kw
  | _ :: _ => Some (call_rio_slurp_read fname args kw)
  end.
End Dispatcher.

(** ** What the readers ask of the backend

    Names for three choices the readers make inline: which bands the plain
    reader asks for, the keywords it passes on, and the dtype of a
    reprojecting read. *)

Section Choices.
Context `{RasterBackend}.

(** [src.read(1, ..) if src.count == 1 else src.read(..)] *)
Definition read_selection (src : Dataset) : option Z :=
  if ds_count src =? 1 then Some 1 else None.

(** [kw.update(out_shape=out_shape)] when [out_shape] is given *)
Definition read_keywords (out_shape : option (list Z)) (kw : pydict) : pydict :=
  match out_shape with
  | Some s => <["out_shape" := VShape s]> kw
  | None => kw
  end.

(** [dtype], or [src.dtypes[0]] when it is [None] *)
Definition reproject_dtype (src : Dataset) (dt : option string) : option string :=
  match dt with
  | Some d => Some d
  | None => head (ds_dtypes src)
  end.
End Choices.

(** ** The specification's vocabulary *)

(** Nodata resolution as the specification words it: the caller's value,
    else the value the source declares, else the constant [0]. *)
Definition nodata_priority (caller declared : option Z) : Z :=
  match caller with
  | Some v => v
  | None =>
      match declared with
      | Some v => v
      | None => 0
      end
  end.

(** The nodata a data source reads with: what the file declares, or the
    source's fallback when the file declares none. *)
Definition declared_or (declared fallback : option Z) : option Z :=
  match declared with
  | Some v => Some v
  | None => fallback
  end.


(** A grid descriptor is consistent with a metadata record when it was
    derived from exactly that record's [height], [width], [transform] and
    [crs]. *)
Definition gbox_consistent (m : pydict) (g : GeoBox) : Prop :=
  m !! "height" = Some (VInt (gb_height g)) /\
  m !! "width" = Some (VInt (gb_width g)) /\
  m !! "transform" = Some (VAffine (gb_transform g)) /\
  exists c, m !! "crs" = Some (VRioCrs c) /\ gb_crs g = dc_crs_from_rio c.

(** The extra options of a write leave the named keys to the writer. *)
Definition leaves_keys (extra : pydict) (keys : list string) : Prop :=
  Forall (fun k => extra !! k = None) keys.

(** What a computation does to the file system: nothing at all, or nothing
    outside one path. *)
Definition leaves_files `{RasterBackend} {A} (m : M A) : Prop :=
  forall fs, fs_after (m fs) = fs.

Definition touches_only `{RasterBackend} {A} (p : string) (m : M A) : Prop :=
  forall fs q, q <> p -> fs_after (m fs) !! q = fs !! q.

(** An option of the writer: the caller's extra option of that name when
    there is one, the writer's own value (or absence) otherwise. *)
Definition overridden (extra : pydict) (k : string) (own : option pyval)
  : option pyval :=
  match extra !! k with
  | Some v => Some v
  | None => own
  end.

(** A dtype name or a nodata value as a Python value. *)
Definition dtype_val (dt : option string) : pyval :=
  match dt with
  | Some d => VStr d
  | None => VNone
  end.

Definition nodata_val (nd : option Z) : pyval :=
  match nd with
  | Some v => VInt v
  | None => VNone
  end.

(** ** The backend's contract *)

Class RasterBackendLaws `{RasterBackend} : Prop := {
  (** a single-band file created for an array's geometry and dtype with
      lossless compression gives the array back *)
  write_read_band : forall opts pix h w d0 d1,
    array_valid pix -> shape pix = [h; w] ->
    opts !! "count" = Some (VInt 1) ->
    opts !! "dtype" = Some (VStr (dtype pix)) ->
    opts !! "height" = Some (VInt h) ->
    opts !! "width" = Some (VInt w) ->
    opts !! "compress" = Some (VStr "DEFLATE") ->
    ds_create opts = Ok d0 ->
    ds_write d0 pix (BandIndex 1) = Ok d1 ->
    ds_count d1 = 1 /\ ds_read d1 (Some 1) ∅ = Ok pix;
  (** reading one band gives a 2-D array, reading without band selection a
      3-D one *)
  read_band_2d : forall d i kw a,
    ds_read d (Some i) kw = Ok a -> ndim a = 2%nat;
  read_all_3d : forall d kw a,
    kw !! "indexes" = None -> ds_read d None kw = Ok a -> ndim a = 3%nat;
  (** reprojection works in place: dtype and shape of the destination stay *)
  reproject_inplace : forall d i dest nd T c kw out,
    ds_reproject d i dest nd T c kw = Ok out ->
    dtype out = dtype dest /\ shape out = shape dest /\
    length (data out) = length (data dest)
}.

(** Modelled from the spec: the data source and [reproject_and_fuse] of
    [datacube.storage], which are not part of this file.  The reader a data
    source opens is on the raster file at the source's path, and its nodata
    is the nodata that file declares, or the source's fallback value when
    the file declares none; fusing works in place, on the destination it is
    given. *)
Class StorageDriverLaws `{StorageDriver} : Prop := {
  open_nodata : forall fs s rdr,
    source_open fs s = Ok rdr ->
    exists d, fs !! src_path s = Some (RasterFile d) /\
      rdr_nodata rdr = declared_or (ds_nodata d) (src_fallback_nodata s);
  fuse_inplace : forall fs ss im g nd rs out,
    reproject_and_fuse fs ss im g nd rs = Ok out ->
    dtype out = dtype im /\ shape out = shape im /\
    length (data out) = length (data im)
}.

(** ** A reference backend

    An in-memory raster store with the behaviour the contract asks for:
    files keep their samples verbatim, reads decimate by nearest neighbour,
    and reprojection is nearest neighbour between axis-aligned grids of one
    CRS.  As with rasterio, a raster may have no CRS, and its metadata then
    has [None] under [crs]; a creation that fails on its CRS has put a file
    at the path by then; and the reprojection initialises the whole
    destination itself. *)
Module Ref.

Record dataset := mkDataset {
  r_dtype : string;
  r_nodata : option Z;
  r_width : Z;
  r_height : Z;
  r_crs : option RioCRS;
  r_transform : Affine;
  r_bands : list (list Z) }.

Definition parse_epsg (s : string) : option Z :=
  if String.prefix "epsg:" s
  then match NilZero.uint_of_string (String.substring 5 (String.length s - 5) s) with
       | Some u => Some (Z.of_N (N.of_uint u))
       | None => None
       end
  else None.

(** The CRS of a new raster from its [crs] option: a CRS object, a string,
    or none at all; anything else is not a CRS. *)
Definition crs_of (v : option pyval) : option (option RioCRS) :=
  match v with
  | Some (VRioCrs c) => Some (Some c)
  | Some (VStr s) =>
      Some (Some (match parse_epsg s with
                  | Some n => mkRioCRS true (Some n) ("EPSG:" +:+ pretty n)
                  | None => mkRioCRS false None s
                  end))
  | Some VNone | None => Some None
  | Some _ => None
  end.

Definition create (opts : pydict) : result dataset :=
  match opts !! "width", opts !! "height", opts !! "count", opts !! "dtype" with
  | Some (VInt w), Some (VInt h), Some (VInt n), Some (VStr d) =>
      if (0 <? w) && (0 <? h) && (0 <? n)
      then match crs_of (opts !! "crs") with
           | Some c =>
               let T := match opts !! "transform" with
                        | Some (VAffine A) => A
                        | _ => mkAffine 1 0 0 0 1 0
                        end in
               let nd := match opts !! "nodata" with
                         | Some (VInt v) => Some v
                         | _ => None
                         end in
               Ok (mkDataset d nd w h c T
                     (replicate (Z.to_nat n) (replicate (Z.to_nat (h * w)) 0)))
           | None => Raise (RasterioError "invalid CRS")
           end
      else Raise (RasterioError "invalid raster size")
  | _, _, _, _ => Raise (TypeError "missing creation option")
  end.

(** A creation that fails on the CRS has created the file before: its
    header is at the path.  One that fails on size or dtype leaves nothing. *)
Definition create_partial (opts : pydict) : option (dataset + string) :=
  match opts !! "width", opts !! "height", opts !! "count", opts !! "dtype" with
  | Some (VInt w), Some (VInt h), Some (VInt n), Some (VStr d) =>
      if (0 <? w) && (0 <? h) && (0 <? n)
      then match crs_of (opts !! "crs") with
           | Some _ => None
           | None => Some (inr "GeoTIFF header")
           end
      else None
  | _, _, _, _ => None
  end.

Definition count (d : dataset) : Z := Z.of_nat (length (r_bands d)).

Definition meta (d : dataset) : pydict :=
  <["driver" := VStr "GTiff"]> (<["dtype" := VStr (r_dtype d)]> (
  <["nodata" := match r_nodata d with Some v => VInt v | None => VNone end]> (
  <["width" := VInt (r_width d)]> (<["height" := VInt (r_height d)]> (
  <["count" := VInt (count d)]> (
  <["crs" := match r_crs d with Some c => VRioCrs c | None => VNone end]> (
  <["transform" := VAffine (r_transform d)]> ∅))))))).

Definition set_bands (d : dataset) (bs : list (list Z)) : dataset :=
  mkDataset (r_dtype d) (r_nodata d) (r_width d) (r_height d) (r_crs d)
            (r_transform d) bs.

Definition band_ok (d : dataset) (i : Z) : bool :=
  (1 <=? i) && (i <=? count d).

Definition write (d : dataset) (pix : ndarray) (band : band_sel) : result dataset :=
  let n := Z.to_nat (r_height d * r_width d) in
  if negb (String.eqb (dtype pix) (r_dtype d))
  then Raise (RasterioError "dtype mismatch")
  else
    match band, shape pix with
    | BandIndex i, [h; w] =>
        if (h =? r_height d) && (w =? r_width d) && band_ok d i
           && (length (data pix) =? n)%nat
        then Ok (set_bands d (<[Z.to_nat (i - 1) := data pix]> (r_bands d)))
        else Raise (RasterioError "array does not fit the dataset")
    | BandIndexes l, [nb; h; w] =>
        if (h =? r_height d) && (w =? r_width d) && forallb (band_ok d) l
           && (nb =? Z.of_nat (length l)) && (length (data pix) =? length l * n)%nat
        then Ok (set_bands d
                   (foldl (fun bs ic => <[Z.to_nat (fst ic - 1) := snd ic]> bs)
                          (r_bands d)
                          (zip l (reshape (replicate (length l) n) (data pix)))))
        else Raise (RasterioError "array does not fit the dataset")
    | _, _ => Raise (RasterioError "array does not fit the dataset")
    end.

(** Nearest-neighbour decimation of one band from [h] x [w] to [h'] x [w']. *)
Definition resample (h w h' w' : Z) (b : list Z) : list Z :=
  flat_map (fun r =>
    map (fun c => nth (Z.to_nat ((r * h / h') * w + c * w / w')) b 0)
        (py_range 0 w'))
    (py_range 0 h').

Definition only_out_shape (kw : pydict) : bool :=
  (size (delete "out_shape" kw) =? 0)%nat.

Definition read (d : dataset) (indexes : option Z) (kw : pydict) : result ndarray :=
  let h := r_height d in
  let w := r_width d in
  if negb (only_out_shape kw) then Raise (TypeError "unexpected keyword argument")
  else
    match indexes with
    | Some i =>
        if band_ok d i
        then
          let b := nth (Z.to_nat (i - 1)) (r_bands d) [] in
          match kw !! "out_shape" with
          | None => Ok (mkArray (r_dtype d) [h; w] b)
          | Some (VShape [h'; w']) =>
              if (0 <? h') && (0 <? w')
              then Ok (mkArray (r_dtype d) [h'; w'] (resample h w h' w' b))
              else Raise (ValueError "out_shape")
          | Some _ => Raise (ValueError "out_shape")
          end
        else Raise (IndexError "band index out of range")
    | None =>
        match kw !! "out_shape" with
        | None => Ok (mkArray (r_dtype d) [count d; h; w] (concat (r_bands d)))
        | Some (VShape [n'; h'; w']) =>
            if (0 <? h') && (0 <? w') && (n' =? count d)
            then Ok (mkArray (r_dtype d) [n'; h'; w']
                       (concat (map (resample h w h' w') (r_bands d))))
            else Raise (ValueError "out_shape")
        | Some _ => Raise (ValueError "out_shape")
        end
    end.

(** Source pixel under destination pixel [k] of a grid [W] columns wide
    with transform [T], when there is one. *)
Definition source_index (d : dataset) (W : Z) (T : Affine) (k : nat) : option nat :=
  let S := r_transform d in
  if (W <=? 0) || (aff_a S =? 0) || (aff_e S =? 0) then None
  else
    let r := Z.of_nat k / W in
    let c := Z.of_nat k mod W in
    let x := aff_a T * c + aff_c T in
    let y := aff_e T * r + aff_f T in
    let cs := (x - aff_c S) / aff_a S in
    let rs := (y - aff_f S) / aff_e S in
    if (0 <=? cs) && (cs <? r_width d) && (0 <=? rs) && (rs <? r_height d)
    then Some (Z.to_nat (rs * r_width d + cs))
    else None.

Definition footprint (d : dataset) (dst_shape : list Z) (T : Affine)
    (dst_crs : string) (kw : pydict) (k : nat) : bool :=
  match dst_shape with
  | [_; W] => bool_decide (is_Some (source_index d W T k))
  | _ => false
  end.

(** Nearest-neighbour resampling of band [i] onto a destination [W]
    columns wide: a pixel over the source takes the source's sample; any
    other pixel takes [init] when there is one and stays as it was
    otherwise. *)
Definition resample_onto (d : dataset) (i : Z) (dest : ndarray) (init : option Z)
    (W : Z) (T : Affine) : ndarray :=
  let b := nth (Z.to_nat (i - 1)) (r_bands d) [] in
  mkArray (dtype dest) (shape dest)
    (imap (fun k old =>
             match source_index d W T k with
             | Some j => np_cast (dtype dest) (nth j b 0)
             | None =>
                 match init with
                 | Some v => np_cast (dtype dest) v
                 | None => old
                 end
             end)
          (data dest)).

Definition same_crs (d : dataset) (dst_crs : string) : bool :=
  match r_crs d with
  | Some c => String.eqb dst_crs (crs_str (dc_crs_from_rio c))
  | None => false
  end.

(** The value the reprojection initialises the destination with: the
    [dst_nodata] handed over, except that a [dst_nodata] of 0 counts as none
    given and the source's nodata is taken when it declares one. *)
Definition init_nodata (d : dataset) (dst_nodata : Z) : Z :=
  if dst_nodata =? 0 then default 0 (r_nodata d) else dst_nodata.

Definition reproject (d : dataset) (i : Z) (dest : ndarray) (dst_nodata : Z)
    (T : Affine) (dst_crs : string) (kw : pydict) : result ndarray :=
  if negb ((size kw =? 0)%nat) then Raise (TypeError "unexpected keyword argument")
  else if negb (band_ok d i) then Raise (IndexError "band index out of range")
  else if negb (same_crs d dst_crs)
  then Raise (RasterioError "CRS transformation not supported")
  else
    match shape dest with
    | [_; W] => Ok (resample_onto d i dest (Some (init_nodata d dst_nodata)) W T)
    | _ => Raise (ValueError "destination must be 2-D")
    end.

#[export] Instance backend : RasterBackend := {|
  Dataset := dataset;
  ds_create := create;
  ds_create_partial := create_partial;
  ds_write := write;
  ds_meta := meta;
  ds_count := count;
  ds_dtypes := fun d => replicate (length (r_bands d)) (r_dtype d);
  ds_nodata := r_nodata;
  ds_read := read;
  ds_reproject := reproject;
  ds_footprint := footprint |}.

(** The reader the reference driver opens on a band of a raster file that
    has a CRS.  Its nodata is the file's, or the data source's fallback when
    the file declares none. *)
Record reader := mkReader {
  rd_dtype : string;
  rd_nodata : option Z;
  rd_geobox : GeoBox }.

Definition open_source (fs : gmap string file) (s : RasterFileDataSource)
  : result reader :=
  match fs !! src_path s with
  | Some (RasterFile d) =>
      if band_ok d (src_band s)
      then match r_crs d with
           | Some c =>
               Ok (mkReader (r_dtype d)
                     (declared_or (r_nodata d) (src_fallback_nodata s))
                     (mkGeoBox (r_width d) (r_height d) (r_transform d)
                               (dc_crs_from_rio c)))
           | None => Raise (ValueError "source has no CRS")
           end
      else Raise (IndexError "band index out of range")
  | Some (OtherFile _) => Raise (RasterioError "not recognized as a supported file format")
  | None => Raise (RasterioError "No such file or directory")
  end.

(** Fusing pastes the source over the destination and leaves the other
    pixels as they were. *)
Definition fuse (fs : gmap string file) (sources : list RasterFileDataSource)
    (im : ndarray) (gbox : GeoBox) (dst_nodata : Z) (resampling : string)
  : result ndarray :=
  match sources with
  | [] => Ok (mkArray (dtype im) (shape im)
                (replicate (length (data im)) (np_cast (dtype im) dst_nodata)))
  | [s] =>
      match fs !! src_path s with
      | Some (RasterFile d) =>
          if negb (String.eqb resampling "nearest")
          then Raise (RasterioError "resampling not supported")
          else if negb (bool_decide (shape im = gb_shape gbox))
          then Raise (ValueError "destination does not fit the grid")
          else if negb (band_ok d (src_band s))
          then Raise (IndexError "band index out of range")
          else if negb (same_crs d (crs_str (gb_crs gbox)))
          then Raise (RasterioError "CRS transformation not supported")
          else Ok (resample_onto d (src_band s) im None (gb_width gbox)
                                 (gb_transform gbox))
      | _ => Raise (RasterioError "No such file or directory")
      end
  | _ => Raise (RasterioError "fusing several sources is not supported")
  end.

#[export] Instance driver : StorageDriver := {|
  Reader := reader;
  rdr_dtype := rd_dtype;
  rdr_nodata := rd_nodata;
  rdr_geobox := rd_geobox;
  source_open := open_source;
  reproject_and_fuse := fuse |}.

(** A sample file system.  [a.tif] is a 2 x 3 single-band [int16] raster in
    EPSG:3857 with 10 m pixels that declares nodata -999; [plain.tif] is the
    same raster declaring no nodata. *)
Definition sample : dataset :=
  mkDataset "int16" (Some (-999)) 3 2 (Some (mkRioCRS true (Some 3857) "EPSG:3857"))
            (mkAffine 10 0 0 0 (-10) 0) [[1; 2; 3; 4; 5; 6]].

Definition plain : dataset :=
  mkDataset "int16" None 3 2 (Some (mkRioCRS true (Some 3857) "EPSG:3857"))
            (mkAffine 10 0 0 0 (-10) 0) [[1; 2; 3; 4; 5; 6]].

(** The same raster without a CRS, alone in a file system of its own. *)
Definition bare : dataset :=
  mkDataset "int16" None 3 2 None (mkAffine 10 0 0 0 (-10) 0) [[1; 2; 3; 4; 5; 6]].


Definition sample_fs : gmap string file :=
  <["plain.tif" := RasterFile plain]> {[ "a.tif" := RasterFile sample ]}.

(** Arrays to write: 2 x 3, 100 x 300, and a 1-D one. *)
Definition sample_pix : ndarray := mkArray "int16" [2; 3] [1; 2; 3; 4; 5; 6].
Definition wide_pix : ndarray := mkArray "uint8" [100; 300] (replicate 30000 0).
Definition flat_pix : ndarray := mkArray "int16" [6] [1; 2; 3; 4; 5; 6].

(** A 3-D array of two 2 x 3 planes. *)
Definition cube_pix : ndarray :=
  mkArray "int16" [2; 2; 3] [1; 2; 3; 4; 5; 6; 7; 8; 9; 10; 11; 12].

(** A 3 x 4 destination grid that overhangs the sample raster by one pixel
    on every side but the right. *)
Definition sample_grid : GeoBox :=
  mkGeoBox 4 3 (mkAffine 10 0 (-10) 0 (-10) 10) (mkCRS "epsg:3857").

End Ref.

(** * Properties *)

(** ** Sequencing *)

Section Sequencing.
Context `{RasterBackend}.

Lemma bind_inv {A B} (m : M A) (k : A -> M B) fs b :
  res (bind m k fs) = Ok b ->
  exists a, res (m fs) = Ok a /\
    res (k a (fs_after (m fs))) = Ok b /\
    fs_after (bind m k fs) = fs_after (k a (fs_after (m fs))) /\
    events (bind m k fs) = events (m fs) ++ events (k a (fs_after (m fs))).
Proof.
  unfold bind. destruct (res (m fs)) as [a|e]; simpl; intros Hb; [|discriminate].
  exists a. auto.
Qed.

Lemma bind_events_elem {A B} (m : M A) (k : A -> M B) fs ev :
  ev ∈ events (bind m k fs) ->
  ev ∈ events (m fs) \/
  exists a, res (m fs) = Ok a /\ ev ∈ events (k a (fs_after (m fs))).
Proof.
  unfold bind. destruct (res (m fs)) as [a|e]; simpl; intros Hin; [|auto].
  apply elem_of_app in Hin as [Hin|Hin]; eauto.
Qed.

Lemma bind_events_prefix {A B} (m : M A) (k : A -> M B) fs ev :
  ev ∈ events (m fs) -> ev ∈ events (bind m k fs).
Proof.
  unfold bind. destruct (res (m fs)) as [a|e]; simpl; intros Hin; [|exact Hin].
  apply elem_of_app. by left.
Qed.

Lemma bind_run {A B} (m : M A) (k : A -> M B) fs a fs1 evs :
  m fs = mkOutcome (Ok a) fs1 evs ->
  bind m k fs =
  mkOutcome (res (k a fs1)) (fs_after (k a fs1)) (evs ++ events (k a fs1)).
Proof. unfold bind. intros ->. reflexivity. Qed.

(** *** The outside calls, one by one *)

Lemma rasterio_open_w_events p opts fs ev :
  ev ∈ events (rasterio_open_w p opts fs) -> ev = EvCreate p opts.
Proof.
  unfold rasterio_open_w.
  destruct (opts !! "driver"); [|destruct (ds_create opts)]; simpl; intros Hin.
  - by apply elem_of_nil in Hin.
  - by apply list_elem_of_singleton in Hin.
  - by apply list_elem_of_singleton in Hin.
Qed.

Lemma rasterio_open_w_ok p opts fs d :
  res (rasterio_open_w p opts fs) = Ok d ->
  ds_create opts = Ok d /\
  fs_after (rasterio_open_w p opts fs) = <[p := RasterFile d]> fs.
Proof.
  unfold rasterio_open_w.
  destruct (opts !! "driver"); [discriminate|].
  destruct (ds_create opts); simpl; intros Hd; [|discriminate].
  injection Hd as ->. auto.
Qed.

Lemma dataset_write_events p d pix band fs ev :
  ev ∈ events (dataset_write p d pix band fs) -> ev = EvWrite p pix band.
Proof.
  unfold dataset_write. destruct (ds_write d pix band); simpl; intros Hin;
    by apply list_elem_of_singleton in Hin.
Qed.

Lemma dataset_write_ok p d pix band fs d' :
  res (dataset_write p d pix band fs) = Ok d' ->
  ds_write d pix band = Ok d' /\
  fs_after (dataset_write p d pix band fs) = <[p := RasterFile d']> fs.
Proof.
  unfold dataset_write.
  destruct (ds_write d pix band); simpl; intros Hd; [|discriminate].
  injection Hd as ->. auto.
Qed.

Lemma check_target_events fname (present overwrite : bool) fs ev :
  ev ∈ events ((if present
                then if overwrite then path_unlink fname
                     else raise (IOError "File exists")
                else ret tt) fs) ->
  ev = EvUnlink fname.
Proof.
  destruct present, overwrite; simpl; intros Hin;
    try (by apply elem_of_nil in Hin).
  unfold path_unlink in Hin. destruct (fs !! fname); simpl in Hin;
    by apply list_elem_of_singleton in Hin.
Qed.

Lemma rasterio_open_r_ok p fs d :
  res (rasterio_open_r p fs) = Ok d ->
  rasterio_open_r p fs = mkOutcome (Ok d) fs [EvOpen p] /\
  fs !! p = Some (RasterFile d).
Proof.
  unfold rasterio_open_r.
  destruct (fs !! p) as [[d'|c]|]; simpl; intros Hd; try discriminate.
  injection Hd as ->. auto.
Qed.

Lemma rasterio_open_r_run p fs d :
  fs !! p = Some (RasterFile d) ->
  rasterio_open_r p fs = mkOutcome (Ok d) fs [EvOpen p].
Proof. unfold rasterio_open_r. intros ->. reflexivity. Qed.

Lemma dataset_read_run p d indexes kw fs :
  dataset_read p d indexes kw fs =
  mkOutcome (ds_read d indexes kw) fs [EvRead p indexes kw].
Proof. reflexivity. Qed.

Lemma warp_reproject_ok p src_band pix nd T c kw fs out :
  res (warp_reproject p src_band pix nd T c kw fs) = Ok out ->
  warp_reproject p src_band pix nd T c kw fs =
    mkOutcome (Ok out) fs [EvReproject p pix nd T c kw] /\
  ds_reproject (fst src_band) (snd src_band) pix nd T c kw = Ok out.
Proof.
  unfold warp_reproject.
  destruct (kw !! "dst_nodata"); [discriminate|].
  destruct (kw !! "dst_transform"); [discriminate|].
  destruct (kw !! "dst_crs"); [discriminate|].
  unfold bind, emit, lift. simpl. intros ->. auto.
Qed.

Lemma lift_run {A} (r : result A) fs : lift r fs = mkOutcome r fs [].
Proof. reflexivity. Qed.
End Sequencing.

(** Reduce the projections of outcomes that are known. *)
Ltac outcome_norm Hr :=
  cbv beta in Hr |- *; cbn [res fs_after events app] in Hr |- *.

(** One step of a successful sequence: [Hr] says the sequence returned;
    [x] names what its first computation returned and [Hx] says so. *)
Ltac bind_ok Hr x Hx :=
  let Hfs := fresh "Hfs" in
  let Hev := fresh "Hev" in
  apply bind_inv in Hr as (x & Hx & Hr & Hfs & Hev);
  rewrite ?Hfs, ?Hev; clear Hfs Hev; outcome_norm Hr.

(** ** The metadata normalizer *)

Section Normalizer.


(** A derived grid descriptor repeats the four entries it was read from. *)
Lemma rio_geobox_derived (meta : pydict) g :
  rio_geobox meta = Ok (Some g) ->
  exists c,
    meta !! "crs" = Some (VRioCrs c) /\
    meta !! "transform" = Some (VAffine (gb_transform g)) /\
    meta !! "height" = Some (VInt (gb_height g)) /\
    meta !! "width" = Some (VInt (gb_width g)) /\
    gb_crs g = dc_crs_from_rio c.
Proof.
  unfold rio_geobox. intros Hg.
  destruct (meta !! "crs") as [vc|]; [|discriminate].
  destruct (meta !! "transform") as [vt|]; [|discriminate].
  destruct (meta !! "height") as [vh|]; [|discriminate].
  destruct (meta !! "width") as [vw|]; [|discriminate].
  destruct vc; try discriminate.
  destruct vw; try discriminate.
  destruct vh; try discriminate.
  destruct vt; try discriminate.
  injection Hg as <-. simpl. eauto 10.
Qed.



(** Outside the backend's metadata mappings the normalizer can raise: a
    mapping with [crs] and [transform] but no [height] is a [KeyError]. *)
Lemma rio_geobox_missing_height (c : RioCRS) (A : Affine) :
  rio_geobox (<["crs" := VRioCrs c]> (<["transform" := VAffine A]> ∅))
  = Raise (KeyError "height").
Proof. reflexivity. Qed.

Lemma gbox_consistent_derived (meta : pydict) g :
  rio_geobox meta = Ok (Some g) -> gbox_consistent meta g.
Proof.
  intros Hg. apply rio_geobox_derived in Hg as (c & Hc & Ht & Hh & Hw & Hg).
  unfold gbox_consistent. eauto 10.
Qed.

End Normalizer.

(** ** What a successful call went through *)

Section Calls.
Context `{RasterBackend}.

Lemma write_gtiff_ok fs fname pix crs resolution offset nodata overwrite
      blocksize extra m :
  res (write_gtiff fname pix crs resolution offset nodata overwrite blocksize
                   extra fs) = Ok m ->
  exists nbands h w band d0 dst og,
    (shape pix = [h; w] /\ nbands = 1 /\ band = BandIndex 1 \/
     shape pix = [nbands; h; w] /\ band = BandIndexes (py_range 1 (nbands + 1))) /\
    ds_create (gtiff_rio_opts w h nbands (dtype pix) crs
                 (mkAffine (fst resolution) 0 (fst offset) 0
                           (snd resolution) (snd offset))
                 nodata blocksize extra) = Ok d0 /\
    ds_write d0 pix band = Ok dst /\
    rio_geobox (ds_meta dst) = Ok og /\
    m = <["path" := VPath fname]> (<["gbox" := gbox_val og]> (ds_meta dst)) /\
    fs_after (write_gtiff fname pix crs resolution offset nodata overwrite
                          blocksize extra fs) !! fname = Some (RasterFile dst).
Proof.
  destruct resolution as [sx sy], offset as [tx ty].
  unfold write_gtiff. intros Hr.
  apply bind_inv in Hr as (dims & Hdims & Hr & -> & _).
  assert (exists nbands h w band, dims = (nbands, h, w, band) /\
            (shape pix = [h; w] /\ nbands = 1 /\ band = BandIndex 1 \/
             shape pix = [nbands; h; w] /\
             band = BandIndexes (py_range 1 (nbands + 1))))
    as (nbands & h & w & band & -> & Hs).
  { destruct (shape pix) as [|a [|b [|c [|d l]]]]; simpl in Hdims;
      try discriminate; injection Hdims as <-; eauto 15. }
  exists nbands, h, w, band.
  cbv beta iota in Hr |- *.
  bind_ok Hr present Hp. clear Hp.
  bind_ok Hr u Hu. clear Hu.
  bind_ok Hr d0 Hd0.
  apply rasterio_open_w_ok in Hd0 as [Hd0 Hfs0]. rewrite Hfs0 in Hr |- *.
  bind_ok Hr dst Hdst.
  apply dataset_write_ok in Hdst as [Hdst Hfs1]. rewrite Hfs1 in Hr |- *.
  bind_ok Hr og Hog.
  unfold lift, ret in Hog, Hr |- *. outcome_norm Hr. cbn [res] in Hog.
  injection Hr as <-.
  exists d0, dst, og. rewrite lookup_insert_eq. auto 10.
Qed.

Lemma rio_slurp_read_ok fs fname out_shape kw a m :
  res (rio_slurp_read fname out_shape kw fs) = Ok (a, m) ->
  exists src og,
    fs !! fname = Some (RasterFile src) /\
    ds_read src (read_selection src) (read_keywords out_shape kw) = Ok a /\
    rio_geobox (ds_meta src) = Ok og /\
    m = <["path" := VStr fname]> (<["gbox" := gbox_val og]> (ds_meta src)) /\
    events (rio_slurp_read fname out_shape kw fs) =
      [EvOpen fname; EvRead fname (read_selection src) (read_keywords out_shape kw)].
Proof.
  unfold rio_slurp_read. fold (read_keywords out_shape kw). intros Hr.
  bind_ok Hr src Hsrc.
  apply rasterio_open_r_ok in Hsrc as [Hsrc Hfs]. rewrite Hsrc in Hr |- *.
  outcome_norm Hr.
  assert ((if ds_count src =? 1
           then dataset_read fname src (Some 1) (read_keywords out_shape kw)
           else dataset_read fname src None (read_keywords out_shape kw)) fs
          = mkOutcome (ds_read src (read_selection src) (read_keywords out_shape kw))
              fs [EvRead fname (read_selection src) (read_keywords out_shape kw)])
    as Hstep.
  { unfold read_selection. destruct (ds_count src =? 1); apply dataset_read_run. }
  bind_ok Hr a' Ha. rewrite Hstep in Ha, Hr |- *. outcome_norm Hr. cbn [res] in Ha.
  bind_ok Hr og Hog.
  unfold lift, ret in Hog, Hr |- *. outcome_norm Hr. cbn [res] in Hog.
  injection Hr as <- <-.
  exists src, og. auto 10.
Qed.

Lemma rio_slurp_read_run fs fname out_shape kw src a og :
  fs !! fname = Some (RasterFile src) ->
  ds_read src (read_selection src) (read_keywords out_shape kw) = Ok a ->
  rio_geobox (ds_meta src) = Ok og ->
  rio_slurp_read fname out_shape kw fs =
  mkOutcome
    (Ok (a, <["path" := VStr fname]> (<["gbox" := gbox_val og]> (ds_meta src))))
    fs
    [EvOpen fname; EvRead fname (read_selection src) (read_keywords out_shape kw)].
Proof.
  intros Hfs Hread Hog.
  unfold rio_slurp_read. fold (read_keywords out_shape kw).
  rewrite (bind_run _ _ _ _ _ _ (rasterio_open_r_run _ _ _ Hfs)).
  assert ((if ds_count src =? 1
           then dataset_read fname src (Some 1) (read_keywords out_shape kw)
           else dataset_read fname src None (read_keywords out_shape kw)) fs
          = mkOutcome (Ok a) fs
              [EvRead fname (read_selection src) (read_keywords out_shape kw)])
    as Hstep.
  { unfold read_selection in *. destruct (ds_count src =? 1);
      rewrite dataset_read_run, Hread; reflexivity. }
  rewrite (bind_run _ _ _ _ _ _ Hstep).
  unfold bind, lift, ret. simpl. rewrite Hog. reflexivity.
Qed.

(** The two [if dst_nodata is None] statements of the reprojecting reads
    compute the specification's priority order. *)
Lemma nodata_resolved (dst_nodata declared : option Z) :
  match match dst_nodata with
        | None => declared
        | Some v => Some v
        end with
  | None => 0
  | Some v => v
  end = nodata_priority dst_nodata declared.
Proof. destruct dst_nodata, declared; reflexivity. Qed.

Lemma rio_slurp_reproject_ok fs fname gbox dt nd kw a m :
  res (rio_slurp_reproject fname gbox dt nd kw fs) = Ok (a, m) ->
  exists src dt' dest og,
    fs !! fname = Some (RasterFile src) /\
    reproject_dtype src dt = Some dt' /\
    np_full (gb_shape gbox) (nodata_priority nd (ds_nodata src)) dt' = Ok dest /\
    ds_reproject src 1 dest (nodata_priority nd (ds_nodata src))
                 (gb_transform gbox) (crs_str (gb_crs gbox)) kw = Ok a /\
    rio_geobox (ds_meta src) = Ok og /\
    m = <["gbox" := VGeoBox gbox]> (<["path" := VStr fname]> (
          <["src_gbox" := gbox_val og]> (ds_meta src))) /\
    events (rio_slurp_reproject fname gbox dt nd kw fs) =
      [EvOpen fname;
       EvReproject fname dest (nodata_priority nd (ds_nodata src))
                   (gb_transform gbox) (crs_str (gb_crs gbox)) kw].
Proof.
  unfold rio_slurp_reproject. intros Hr.
  bind_ok Hr src Hsrc.
  apply rasterio_open_r_ok in Hsrc as [Hsrc Hfs]. rewrite Hsrc in Hr |- *.
  outcome_norm Hr.
  bind_ok Hr dt' Hdt.
  assert (reproject_dtype src dt = Some dt' /\
          (match dt with
           | None => match ds_dtypes src with
                     | d :: _ => ret d
                     | [] => raise (IndexError "tuple index out of range")
                     end
           | Some d => ret d
           end) fs = mkOutcome (Ok dt') fs []) as [Hdt' Hstep].
  { destruct dt as [d|]; simpl in *; [injection Hdt as ->; auto|].
    destruct (ds_dtypes src) as [|d l]; simpl in *; [discriminate|].
    injection Hdt as ->. auto. }
  rewrite Hstep in Hr |- *. outcome_norm Hr.
  rewrite !nodata_resolved in Hr |- *.
  bind_ok Hr dest Hdest. unfold lift in Hdest, Hr |- *.
  outcome_norm Hr. cbn [res] in Hdest.
  bind_ok Hr out Hout.
  apply warp_reproject_ok in Hout as [Hrun Hout]. rewrite Hrun in Hr |- *.
  outcome_norm Hr. cbn [fst snd] in Hout.
  bind_ok Hr og Hog.
  unfold lift, ret in Hog, Hr |- *. outcome_norm Hr. cbn [res] in Hog.
  injection Hr as <- <-.
  exists src, dt', dest, og. auto 10.
Qed.
End Calls.

(** ** The writer's checks *)

Section WriterChecks.
Context `{RasterBackend}.

Lemma shape_not_2d_3d (pix : ndarray) :
  ndim pix <> 2%nat -> ndim pix <> 3%nat ->
  match shape pix with
  | [_; _] | [_; _; _] => False
  | _ => True
  end.
Proof.
  unfold ndim. destruct (shape pix) as [|a [|b [|c [|d l]]]]; simpl; intros; auto.
Qed.

(** With an array that is neither 2-D nor 3-D the call stops at its first
    statement. *)
Lemma write_gtiff_bad_ndim fs fname pix crs resolution offset nodata overwrite
      blocksize extra :
  ndim pix <> 2%nat -> ndim pix <> 3%nat ->
  write_gtiff fname pix crs resolution offset nodata overwrite blocksize extra fs
  = mkOutcome (Raise (ValueError "Need 2d or 3d ndarray on input")) fs [].
Proof.
  intros H2 H3. pose proof (shape_not_2d_3d pix H2 H3) as Hs.
  unfold write_gtiff.
  destruct (shape pix) as [|a [|b [|c [|d l]]]]; try contradiction; reflexivity.
Qed.

(** C5: an input array whose number of dimensions is neither 2 nor 3 makes
    [write_gtiff] raise [ValueError] at once: the file system is as it was
    and no call has left the module. *)
Theorem write_gtiff_rejects_ndim fs fname pix crs resolution offset nodata
        overwrite blocksize extra :
  ndim pix <> 2%nat -> ndim pix <> 3%nat ->
  let o := write_gtiff fname pix crs resolution offset nodata overwrite
                       blocksize extra fs in
  res o = Raise (ValueError "Need 2d or 3d ndarray on input") /\
  events o = [] /\
  fs_after o = fs.
Proof.
  intros H2 H3 o. subst o.
  rewrite write_gtiff_bad_ndim by assumption. auto.
Qed.

(** C10: with such an array the dimensionality check comes before the look
    at the target path: the call raises [ValueError], not the existence
    error, never asks whether the path exists, never unlinks it, and the
    file that was there stays, whatever [overwrite] says. *)
Theorem write_gtiff_ndim_before_exists fs fname f pix crs resolution offset
        nodata overwrite blocksize extra :
  fs !! fname = Some f ->
  ndim pix <> 2%nat -> ndim pix <> 3%nat ->
  let o := write_gtiff fname pix crs resolution offset nodata overwrite
                       blocksize extra fs in
  res o = Raise (ValueError "Need 2d or 3d ndarray on input") /\
  res o <> Raise (IOError "File exists") /\
  (EvExists fname ∉ events o) /\
  (EvUnlink fname ∉ events o) /\
  fs_after o !! fname = Some f.
Proof.
  intros Hf H2 H3 o. subst o.
  rewrite write_gtiff_bad_ndim by assumption. simpl.
  repeat split; try assumption; try discriminate; apply not_elem_of_nil.
Qed.

(** C4: with a 2-D or 3-D array, a target path that exists and
    [overwrite=False], [write_gtiff] raises the existence error.  The only
    call made is the existence test, so no write was attempted, and the
    file system, the existing file included, is unchanged. *)
Theorem write_gtiff_exists_no_overwrite fs fname f pix crs resolution offset
        nodata blocksize extra :
  ndim pix = 2%nat \/ ndim pix = 3%nat ->
  fs !! fname = Some f ->
  let o := write_gtiff fname pix crs resolution offset nodata false
                       blocksize extra fs in
  res o = Raise (IOError "File exists") /\
  events o = [EvExists fname] /\
  fs_after o = fs /\
  fs_after o !! fname = Some f.
Proof.
  intros Hd Hf o. subst o. unfold write_gtiff, ndim in *.
  destruct (shape pix) as [|a [|b [|c [|d l]]]]; simpl in Hd;
    try (destruct Hd; discriminate);
    unfold bind, path_exists, ret, raise; simpl;
    rewrite Hf; rewrite bool_decide_eq_true_2 by eauto; simpl; auto.
Qed.
End WriterChecks.

(** ** The writer's options *)

Section WriterOptions.
Context `{RasterBackend}.

(** Whatever creation reaches the backend carries the option dictionary
    built from the array's shape and the arguments. *)
Lemma write_gtiff_create_opts fs fname pix crs resolution offset nodata
      overwrite blocksize extra p opts :
  EvCreate p opts ∈ events (write_gtiff fname pix crs resolution offset nodata
                                        overwrite blocksize extra fs) ->
  exists nbands h w,
    (shape pix = [h; w] /\ nbands = 1 \/ shape pix = [nbands; h; w]) /\
    p = fname /\
    opts = gtiff_rio_opts w h nbands (dtype pix) crs
             (mkAffine (fst resolution) 0 (fst offset) 0 (snd resolution) (snd offset))
             nodata blocksize extra.
Proof.
  destruct resolution as [sx sy], offset as [tx ty].
  unfold write_gtiff. intros Hin.
  apply bind_events_elem in Hin as [Hin | (dims & Hdims & Hin)].
  { destruct (shape pix) as [|a [|b [|c [|d l]]]]; simpl in Hin;
      by apply elem_of_nil in Hin. }
  assert (exists nbands h w band, dims = (nbands, h, w, band) /\
            (shape pix = [h; w] /\ nbands = 1 \/ shape pix = [nbands; h; w]))
    as (nbands & h & w & band & -> & Hs).
  { destruct (shape pix) as [|a [|b [|c [|d l]]]]; simpl in Hdims;
      try discriminate; injection Hdims as <-; eauto 10. }
  exists nbands, h, w. split; [exact Hs|].
  cbv beta iota in Hin.
  apply bind_events_elem in Hin as [Hin | (present & _ & Hin)].
  { apply list_elem_of_singleton in Hin. discriminate. }
  apply bind_events_elem in Hin as [Hin | (_ & _ & Hin)].
  { apply check_target_events in Hin. discriminate. }
  apply bind_events_elem in Hin as [Hin | (d0 & _ & Hin)].
  { apply rasterio_open_w_events in Hin. by injection Hin as -> ->. }
  apply bind_events_elem in Hin as [Hin | (d1 & _ & Hin)].
  { apply dataset_write_events in Hin. discriminate. }
  apply bind_events_elem in Hin as [Hin | (g & _ & Hin)];
    by apply elem_of_nil in Hin.
Qed.

(** The caller's extra options win; what they do not name keeps the
    writer's value. *)
Lemma gtiff_rio_opts_lookup w h nbands dt crs A nodata blocksize extra k :
  gtiff_rio_opts w h nbands dt crs A nodata blocksize extra !! k =
  match extra !! k with
  | Some v => Some v
  | None => gtiff_rio_opts w h nbands dt crs A nodata blocksize ∅ !! k
  end.
Proof.
  unfold gtiff_rio_opts. rewrite lookup_union.
  rewrite (left_id_L ∅ (∪)).
  destruct (extra !! k) as [v|]; simpl.
  - by rewrite union_Some_l.
  - by rewrite (left_id_L None _).
Qed.

Lemma gtiff_rio_opts_tiling w h nbands dt crs A nodata b :
  let o := gtiff_rio_opts w h nbands dt crs A nodata (Some b) ∅ in
  o !! "tiled" = Some (VBool true) /\
  o !! "blockxsize" = Some (VInt (Z.min b w)) /\
  o !! "blockysize" = Some (VInt (Z.min b h)).
Proof.
  unfold gtiff_rio_opts. rewrite (left_id_L ∅ (∪)).
  destruct nodata; repeat split;
    repeat (rewrite lookup_insert_ne by discriminate);
    apply lookup_insert_eq.
Qed.

Lemma gtiff_rio_opts_defaults w h nbands dt crs A nodata blocksize :
  let o := gtiff_rio_opts w h nbands dt crs A nodata blocksize ∅ in
  o !! "width" = Some (VInt w) /\
  o !! "height" = Some (VInt h) /\
  o !! "count" = Some (VInt nbands) /\
  o !! "dtype" = Some (VStr dt) /\
  o !! "compress" = Some (VStr "DEFLATE").
Proof.
  unfold gtiff_rio_opts. rewrite (left_id_L ∅ (∪)).
  destruct nodata, blocksize; repeat split;
    repeat (rewrite lookup_insert_ne by discriminate);
    apply lookup_insert_eq.
Qed.

Lemma gtiff_rio_opts_driver w h nbands dt crs A nodata blocksize extra :
  extra !! "driver" = None ->
  gtiff_rio_opts w h nbands dt crs A nodata blocksize extra !! "driver" = None.
Proof.
  intros He. rewrite gtiff_rio_opts_lookup, He.
  unfold gtiff_rio_opts. rewrite (left_id_L ∅ (∪)).
  destruct nodata, blocksize;
    repeat (rewrite lookup_insert_ne by discriminate);
    apply lookup_empty.
Qed.

(** Past the two checks the writer does ask the backend to create the
    file, with the option dictionary. *)
Lemma write_gtiff_creates fs fname pix crs resolution offset nodata overwrite
      blocksize extra nbands h w :
  shape pix = [h; w] /\ nbands = 1 \/ shape pix = [nbands; h; w] ->
  fs !! fname = None \/ overwrite = true ->
  extra !! "driver" = None ->
  EvCreate fname
    (gtiff_rio_opts w h nbands (dtype pix) crs
       (mkAffine (fst resolution) 0 (fst offset) 0 (snd resolution) (snd offset))
       nodata blocksize extra)
    ∈ events (write_gtiff fname pix crs resolution offset nodata overwrite
                          blocksize extra fs).
Proof.
  intros Hs Hfree Hdrv.
  destruct resolution as [sx sy], offset as [tx ty].
  unfold write_gtiff.
  assert (exists band,
            (match shape pix with
             | [h; w] => ret (1, h, w, BandIndex 1)
             | [nbands; h; w] =>
                 ret (nbands, h, w, BandIndexes (py_range 1 (nbands + 1)))
             | _ => raise (ValueError "Need 2d or 3d ndarray on input")
             end : M (Z * Z * Z * band_sel)) fs
            = mkOutcome (Ok (nbands, h, w, band)) fs []) as [band Hdims].
  { destruct Hs as [[-> ->] | ->]; eexists; reflexivity. }
  rewrite (bind_run _ _ _ _ _ _ Hdims). cbv beta iota. cbn [events app].
  assert (path_exists fname fs
          = mkOutcome (Ok (bool_decide (is_Some (fs !! fname)))) fs
                      [EvExists fname]) as Hex by reflexivity.
  rewrite (bind_run _ _ _ _ _ _ Hex). cbv beta. cbn [events].
  apply elem_of_cons. right.
  assert (exists fs1 evs,
            (if bool_decide (is_Some (fs !! fname))
             then if overwrite then path_unlink fname
                  else raise (IOError "File exists")
             else ret tt) fs = mkOutcome (Ok tt) fs1 evs) as (fs1 & evs & Hchk).
  { unfold path_unlink.
    destruct (fs !! fname) as [f|] eqn:Hf.
    - rewrite bool_decide_eq_true_2 by eauto.
      destruct Hfree as [?| ->]; [discriminate|].
      cbv beta. rewrite Hf. eauto.
    - rewrite bool_decide_eq_false_2 by (intros [? ?]; discriminate).
      eexists _, _. reflexivity. }
  rewrite (bind_run _ _ _ _ _ _ Hchk). cbv beta. cbn [events].
  apply elem_of_app. right.
  apply bind_events_prefix. unfold rasterio_open_w.
  rewrite gtiff_rio_opts_driver by exact Hdrv.
  destruct (ds_create _); apply list_elem_of_here.
Qed.

(** C8, as the writer has it: when a block size is given, the creation
    that reaches the backend asks for tiling with tiles of
    [min(blocksize, width)] by [min(blocksize, height)], except for those of
    the three tiling options that the caller's extra options name, which
    take the caller's value.  The creation does reach the backend once the
    array is 2-D or 3-D and the path is free or may be overwritten. *)
Theorem write_gtiff_tiling fs fname pix crs resolution offset nodata overwrite
        b extra :
  let o := write_gtiff fname pix crs resolution offset nodata overwrite
                       (Some b) extra fs in
  (forall opts, EvCreate fname opts ∈ events o ->
     exists h w,
       (shape pix = [h; w] \/ exists nbands, shape pix = [nbands; h; w]) /\
       opts !! "tiled" = Some (default (VBool true) (extra !! "tiled")) /\
       opts !! "blockxsize"
         = Some (default (VInt (Z.min b w)) (extra !! "blockxsize")) /\
       opts !! "blockysize"
         = Some (default (VInt (Z.min b h)) (extra !! "blockysize"))) /\
  (ndim pix = 2%nat \/ ndim pix = 3%nat ->
   fs !! fname = None \/ overwrite = true ->
   extra !! "driver" = None ->
   exists opts, EvCreate fname opts ∈ events o).
Proof.
  intros o. subst o. split.
  - intros opts Hin.
    apply write_gtiff_create_opts in Hin as (nbands & h & w & Hs & _ & ->).
    exists h, w. split.
    { destruct Hs as [[Hs _]|Hs]; [left|right; exists nbands]; exact Hs. }
    pose proof (gtiff_rio_opts_tiling w h nbands (dtype pix) crs
                  (mkAffine (fst resolution) 0 (fst offset) 0
                            (snd resolution) (snd offset)) nodata b)
      as (Ht & Hx & Hy).
    repeat split.
    + rewrite gtiff_rio_opts_lookup, Ht. by destruct (extra !! "tiled").
    + rewrite gtiff_rio_opts_lookup, Hx. by destruct (extra !! "blockxsize").
    + rewrite gtiff_rio_opts_lookup, Hy. by destruct (extra !! "blockysize").
  - intros Hd Hfree Hdrv. unfold ndim in Hd.
    destruct (shape pix) as [|x [|y [|z [|t l]]]] eqn:Hs; simpl in Hd;
      try (destruct Hd; discriminate).
    + eexists. eapply (write_gtiff_creates _ _ _ _ _ _ _ _ _ _ 1 x y); auto.
    + eexists. eapply (write_gtiff_creates _ _ _ _ _ _ _ _ _ _ x y z); auto.
Qed.
End WriterOptions.

(** ** Metadata records *)

Section Records.
Context `{RasterBackend}.

Lemma gbox_consistent_insert (m : pydict) g k v :
  k <> "height" -> k <> "width" -> k <> "transform" -> k <> "crs" ->
  gbox_consistent m g -> gbox_consistent (<[k := v]> m) g.
Proof.
  intros ? ? ? ? (Hh & Hw & Ht & c & Hc & Hg).
  unfold gbox_consistent. rewrite !lookup_insert_ne by assumption. eauto 10.
Qed.

(** A record completed with [gbox] and [path]: a grid descriptor found
    under [gbox] is the one derived from the record. *)
Lemma record_gbox_consistent (m : pydict) og p g :
  rio_geobox m = Ok og ->
  <["path" := p]> (<["gbox" := gbox_val og]> m) !! "gbox" = Some (VGeoBox g) ->
  gbox_consistent (<["path" := p]> (<["gbox" := gbox_val og]> m)) g.
Proof.
  intros Hg Hl. rewrite lookup_insert_ne in Hl by discriminate.
  rewrite lookup_insert_eq in Hl.
  destruct og as [g'|]; simpl in Hl; [|discriminate].
  injection Hl as ->.
  do 2 (apply gbox_consistent_insert; [discriminate..|]).
  by apply gbox_consistent_derived.
Qed.

(** C7, as the module has it: in a record returned by [rio_slurp_read] or
    [write_gtiff], a non-null [gbox] is the grid descriptor derived from
    that record's own [height], [width], [transform] and [crs].  In a
    record returned by [rio_slurp_reproject] that holds for [src_gbox];
    [gbox] there is the destination grid the caller asked for. *)
Theorem produced_gbox_consistent :
  (forall fs fname out_shape kw a m g,
     res (rio_slurp_read fname out_shape kw fs) = Ok (a, m) ->
     m !! "gbox" = Some (VGeoBox g) -> gbox_consistent m g) /\
  (forall fs fname pix crs resolution offset nodata overwrite blocksize extra m g,
     res (write_gtiff fname pix crs resolution offset nodata overwrite
                      blocksize extra fs) = Ok m ->
     m !! "gbox" = Some (VGeoBox g) -> gbox_consistent m g) /\
  (forall fs fname gbox dt nd kw a m,
     res (rio_slurp_reproject fname gbox dt nd kw fs) = Ok (a, m) ->
     m !! "gbox" = Some (VGeoBox gbox) /\
     forall g, m !! "src_gbox" = Some (VGeoBox g) -> gbox_consistent m g).
Proof.
  split; [|split].
  - intros fs fname out_shape kw a m g Hr Hg.
    apply rio_slurp_read_ok in Hr as (src & og & _ & _ & Hog & -> & _).
    eapply record_gbox_consistent; eassumption.
  - intros fs fname pix crs resolution offset nodata overwrite blocksize extra
           m g Hr Hg.
    apply write_gtiff_ok in Hr
      as (nbands & h & w & band & d0 & dst & og & _ & _ & _ & Hog & -> & _).
    eapply record_gbox_consistent; eassumption.
  - intros fs fname gbox dt nd kw a m Hr.
    apply rio_slurp_reproject_ok in Hr
      as (src & dt' & dest & og & _ & _ & _ & _ & Hog & -> & _).
    split; [apply lookup_insert_eq|].
    intros g Hg. rewrite !lookup_insert_ne in Hg by discriminate.
    rewrite lookup_insert_eq in Hg.
    destruct og as [g'|]; simpl in Hg; [|discriminate].
    injection Hg as ->.
    do 3 (apply gbox_consistent_insert; [discriminate..|]).
    by apply gbox_consistent_derived.
Qed.
End Records.

(** ** Reprojecting reads *)

Section Reprojecting.
Context `{RasterBackend} `{!StorageDriver}.

Lemma dc_read_ok fs path band gbox resampling dt nd fallback im :
  res (dc_read path band gbox resampling dt nd fallback fs) = Ok im ->
  exists rdr dest,
    let source := mkSource path band fallback in
    let g := default (rdr_geobox rdr) gbox in
    let v := nodata_priority nd (rdr_nodata rdr) in
    source_open fs source = Ok rdr /\
    np_full (gb_shape g) v (default (rdr_dtype rdr) dt) = Ok dest /\
    reproject_and_fuse fs [source] dest g v resampling = Ok im /\
    events (dc_read path band gbox resampling dt nd fallback fs) =
      [EvSourceOpen source; EvFuse [source] dest g v resampling].
Proof.
  unfold dc_read. intros Hr.
  bind_ok Hr rdr Hrdr.
  unfold source_open_call in Hrdr, Hr |- *. outcome_norm Hr. cbn [res] in Hrdr.
  rewrite !nodata_resolved in Hr |- *.
  bind_ok Hr dest Hdest.
  unfold lift in Hdest, Hr |- *. outcome_norm Hr. cbn [res] in Hdest.
  bind_ok Hr out Hout.
  unfold reproject_and_fuse_call, ret in Hout, Hr |- *. outcome_norm Hr.
  cbn [res] in Hout. injection Hr as <-.
  exists rdr, dest. cbv zeta.
  destruct gbox, dt; auto.
Qed.

(** The nodata of [dc_read] written out: the caller's [dst_nodata], else
    what the file declares, else the caller's fallback, else [0]. *)
Lemma nodata_with_fallback (dst_nodata declared fallback : option Z) :
  nodata_priority dst_nodata (declared_or declared fallback) =
  match dst_nodata with
  | Some v => v
  | None =>
      match declared with
      | Some v => v
      | None =>
          match fallback with
          | Some v => v
          | None => 0
          end
      end
  end.
Proof. destruct dst_nodata, declared, fallback; reflexivity. Qed.

(** C2, as the module has it: the nodata value that fills the output of a
    reprojecting read follows a priority order.  For [rio_slurp_reproject]
    it is the caller's [dst_nodata] when given, else the nodata the file
    declares, else [0].  For [dc_read] the caller's [fallback_nodata] comes
    in between: [dst_nodata], else the file's nodata, else
    [fallback_nodata], else [0].  That value is the fill value of the
    destination array and the [dst_nodata] handed to the reprojection. *)
Theorem nodata_resolution_order `{!StorageDriverLaws} :
  (forall fs fname gbox dt dst_nodata kw pix m,
     res (rio_slurp_reproject fname gbox dt dst_nodata kw fs) = Ok (pix, m) ->
     exists src dt' dest,
       fs !! fname = Some (RasterFile src) /\
       match dt with
       | Some d => dt' = d
       | None => head (ds_dtypes src) = Some dt'
       end /\
       let v := match dst_nodata with
                | Some v => v
                | None => match ds_nodata src with
                          | Some v => v
                          | None => 0
                          end
                end in
       np_full (gb_shape gbox) v dt' = Ok dest /\
       events (rio_slurp_reproject fname gbox dt dst_nodata kw fs) =
         [EvOpen fname;
          EvReproject fname dest v (gb_transform gbox) (crs_str (gb_crs gbox)) kw]) /\
  (forall fs path band gbox resampling dt dst_nodata fallback im,
     res (dc_read path band gbox resampling dt dst_nodata fallback fs) = Ok im ->
     exists src rdr dest,
       fs !! path = Some (RasterFile src) /\
       source_open fs (mkSource path band fallback) = Ok rdr /\
       let v := match dst_nodata with
                | Some v => v
                | None => match ds_nodata src with
                          | Some v => v
                          | None => match fallback with
                                    | Some v => v
                                    | None => 0
                                    end
                          end
                end in
       let g := match gbox with
                | Some g => g
                | None => rdr_geobox rdr
                end in
       let dt' := match dt with
                  | Some d => d
                  | None => rdr_dtype rdr
                  end in
       np_full (gb_shape g) v dt' = Ok dest /\
       events (dc_read path band gbox resampling dt dst_nodata fallback fs) =
         [EvSourceOpen (mkSource path band fallback);
          EvFuse [mkSource path band fallback] dest g v resampling]).
Proof.
  split.
  - intros fs fname gbox dt nd kw pix m Hr.
    apply rio_slurp_reproject_ok in Hr
      as (src & dt' & dest & og & Hfs & Hdt & Hdest & _ & _ & _ & Hev).
    exists src, dt', dest. repeat split; auto.
    destruct dt as [d|]; simpl in Hdt; [by injection Hdt|exact Hdt].
  - intros fs path band gbox resampling dt nd fallback im Hr.
    apply dc_read_ok in Hr as (rdr & dest & Hrdr & Hdest & _ & Hev).
    destruct (open_nodata _ _ _ Hrdr) as (src & Hsrc & Hnd).
    cbn [src_path src_fallback_nodata] in Hsrc, Hnd.
    rewrite Hnd, nodata_with_fallback in Hdest, Hev.
    exists src, rdr, dest. auto.
Qed.
End Reprojecting.

(** ** Shape and fill of a reprojecting read *)

Section Footprint.
Context `{RasterBackend} `{!RasterBackendLaws}.
Context `{!StorageDriver} `{!StorageDriverLaws}.

Lemma np_full_ok s v d a :
  np_full s v d = Ok a ->
  dtype a = d /\ shape a = s /\
  length (data a) = Z.to_nat (shape_size s) /\
  Forall (fun x => x = np_cast d v) (data a).
Proof.
  unfold np_full. destruct (forallb _ s); [|discriminate].
  intros Ha. injection Ha as <-. simpl.
  rewrite length_replicate. repeat split.
  apply Forall_forall. intros x Hx. by apply elem_of_replicate in Hx as [-> _].
Qed.



End Footprint.

(** ** Plain reads and the round trip *)

Section PlainRead.
Context `{RasterBackend} `{!RasterBackendLaws}.


(** C1: a valid 2-D array that [write_gtiff] has written, to a path that
    was free or with [overwrite], the extra options leaving size, band
    count, dtype and compression to the writer, comes back from a plain
    [rio_slurp_read]: the array returned is the array written, element
    for element, with its shape and its dtype. *)
Theorem write_read_roundtrip fs fname pix crs resolution offset nodata
        overwrite blocksize extra meta :
  array_valid pix ->
  ndim pix = 2%nat ->
  leaves_keys extra ["width"; "height"; "count"; "dtype"; "compress"] ->
  let o := write_gtiff fname pix crs resolution offset nodata overwrite
                       blocksize extra fs in
  res o = Ok meta ->
  exists a meta',
    res (rio_slurp_read fname None ∅ (fs_after o)) = Ok (a, meta') /\
    a = pix /\ data a = data pix /\ shape a = shape pix /\ dtype a = dtype pix.
Proof.
  intros Hvalid Hndim Hextra o Hres. subst o.
  apply write_gtiff_ok in Hres
    as (nbands & h & w & band & d0 & dst & og & Hs & Hd0 & Hdst & Hog & _ & Hfile).
  destruct Hs as [(Hs & -> & ->) | [Hs _]];
    [|unfold ndim in Hndim; rewrite Hs in Hndim; discriminate].
  apply Forall_cons in Hextra as [Hw Hextra].
  apply Forall_cons in Hextra as [Hh Hextra].
  apply Forall_cons in Hextra as [Hc Hextra].
  apply Forall_cons in Hextra as [Hd Hextra].
  apply Forall_cons in Hextra as [Hz _].
  pose proof (gtiff_rio_opts_defaults w h 1 (dtype pix) crs
                (mkAffine (fst resolution) 0 (fst offset) 0
                          (snd resolution) (snd offset)) nodata blocksize)
    as (Dw & Dh & Dc & Dd & Dz).
  pose proof (gtiff_rio_opts_lookup w h 1 (dtype pix) crs
                (mkAffine (fst resolution) 0 (fst offset) 0
                          (snd resolution) (snd offset)) nodata blocksize extra)
    as Hlook.
  pose proof (Hlook "width") as Lw. rewrite Hw, Dw in Lw.
  pose proof (Hlook "height") as Lh. rewrite Hh, Dh in Lh.
  pose proof (Hlook "count") as Lc. rewrite Hc, Dc in Lc.
  pose proof (Hlook "dtype") as Ld. rewrite Hd, Dd in Ld.
  pose proof (Hlook "compress") as Lz. rewrite Hz, Dz in Lz.
  destruct (write_read_band _ pix h w d0 dst Hvalid Hs Lc Ld Lh Lw Lz Hd0 Hdst)
    as [Hcount Hread].
  exists pix. eexists. split; [|auto].
  rewrite (rio_slurp_read_run _ fname None ∅ dst pix og Hfile); [reflexivity| |exact Hog].
  unfold read_selection. rewrite Hcount. exact Hread.
Qed.
End PlainRead.

(** ** The reference backend keeps the contract *)

Module RefLaws.
Import Ref.



Lemma create_single_band (opts : pydict) dt h w d0 :
  opts !! "count" = Some (VInt 1) ->
  opts !! "dtype" = Some (VStr dt) ->
  opts !! "height" = Some (VInt h) ->
  opts !! "width" = Some (VInt w) ->
  create opts = Ok d0 ->
  r_dtype d0 = dt /\ r_height d0 = h /\ r_width d0 = w /\
  length (r_bands d0) = 1%nat.
Proof.
  unfold create. intros -> -> -> ->.
  destruct ((0 <? w) && (0 <? h) && (0 <? 1)); [|discriminate].
  destruct (crs_of (opts !! "crs")); [|discriminate].
  intros Hd. injection Hd as <-. simpl. auto.
Qed.

Lemma write_band_one d0 pix d1 :
  length (r_bands d0) = 1%nat ->
  write d0 pix (BandIndex 1) = Ok d1 ->
  exists h w, shape pix = [h; w] /\
    r_dtype d1 = r_dtype d0 /\ r_height d1 = r_height d0 /\
    r_width d1 = r_width d0 /\ r_bands d1 = [data pix].
Proof.
  unfold write. intros Hlen.
  destruct (negb (dtype pix =? r_dtype d0)%string); [discriminate|].
  destruct (shape pix) as [|h [|w [|x l]]]; try discriminate.
  destruct ((h =? r_height d0) && (w =? r_width d0) && band_ok d0 1
            && (length (data pix) =? Z.to_nat (r_height d0 * r_width d0))%nat);
    [|discriminate].
  intros Hd. injection Hd as <-. exists h, w. simpl.
  destruct (r_bands d0) as [|b [|b' l]]; try discriminate. auto.
Qed.

Lemma write_read (opts : pydict) pix h w d0 d1 :
  array_valid pix -> shape pix = [h; w] ->
  opts !! "count" = Some (VInt 1) ->
  opts !! "dtype" = Some (VStr (dtype pix)) ->
  opts !! "height" = Some (VInt h) ->
  opts !! "width" = Some (VInt w) ->
  opts !! "compress" = Some (VStr "DEFLATE") ->
  create opts = Ok d0 ->
  write d0 pix (BandIndex 1) = Ok d1 ->
  count d1 = 1 /\ read d1 (Some 1) ∅ = Ok pix.
Proof.
  intros _ Hs Hc Hd Hh Hw _ Hd0 Hd1.
  destruct (create_single_band opts _ _ _ _ Hc Hd Hh Hw Hd0)
    as (Ed & Eh & Ew & Eb).
  apply write_band_one in Hd1 as (h' & w' & Hs' & Ed' & Eh' & Ew' & Eb');
    [|exact Eb].
  unfold read, band_ok, count. rewrite Eb', Ed', Eh', Ew', Ed, Eh, Ew.
  split; [reflexivity|]. simpl.
  destruct pix as [pd ps pdata]; simpl in *; subst; reflexivity.
Qed.

Lemma read_band_ndim d i kw a : read d (Some i) kw = Ok a -> ndim a = 2%nat.
Proof.
  unfold read. intros Ha.
  destruct (negb (only_out_shape kw)); [discriminate|].
  destruct (band_ok d i); [|discriminate].
  destruct (kw !! "out_shape") as [v|]; [|by injection Ha as <-].
  destruct v as [| | | |dims| | | |]; try discriminate.
  destruct dims as [|h' [|w' [|x l]]]; try discriminate.
  destruct ((0 <? h') && (0 <? w')); [|discriminate].
  by injection Ha as <-.
Qed.

Lemma read_all_ndim d kw a : read d None kw = Ok a -> ndim a = 3%nat.
Proof.
  unfold read. intros Ha.
  destruct (negb (only_out_shape kw)); [discriminate|].
  destruct (kw !! "out_shape") as [v|]; [|by injection Ha as <-].
  destruct v as [| | | |dims| | | |]; try discriminate.
  destruct dims as [|n' [|h' [|w' [|x l]]]]; try discriminate.
  destruct ((0 <? h') && (0 <? w') && (n' =? count d)); [|discriminate].
  by injection Ha as <-.
Qed.

Lemma reproject_keeps d i dest nd T c kw out :
  reproject d i dest nd T c kw = Ok out ->
  dtype out = dtype dest /\ shape out = shape dest /\
  length (data out) = length (data dest).
Proof.
  unfold reproject. intros Ho.
  destruct (negb (size kw =? 0)%nat); [discriminate|].
  destruct (negb (band_ok d i)); [discriminate|].
  destruct (negb (same_crs d c)); [discriminate|].
  destruct (shape dest) as [|Hh [|W [|x l]]] eqn:Hs; try discriminate.
  injection Ho as <-. simpl. rewrite length_imap. auto.
Qed.

#[export] Instance backend_laws : RasterBackendLaws.
Proof.
  constructor.
  - exact write_read.
  - exact read_band_ndim.
  - intros d kw a _. apply read_all_ndim.
  - exact reproject_keeps.
Qed.

(** The reader of the reference driver is on the file at the source's path
    and reads with the file's nodata or the fallback. *)
Lemma open_source_nodata fs s rdr :
  open_source fs s = Ok rdr ->
  exists d, fs !! src_path s = Some (RasterFile d) /\
    rd_nodata rdr = declared_or (r_nodata d) (src_fallback_nodata s).
Proof.
  unfold open_source. intros Ho.
  destruct (fs !! src_path s) as [[d|x]|]; try discriminate.
  destruct (band_ok d (src_band s)); [|discriminate].
  destruct (r_crs d); [|discriminate].
  injection Ho as <-. eauto.
Qed.

Lemma fuse_keeps fs ss im g nd rs out :
  fuse fs ss im g nd rs = Ok out ->
  dtype out = dtype im /\ shape out = shape im /\
  length (data out) = length (data im).
Proof.
  unfold fuse. intros Ho.
  destruct ss as [|s [|s' l]]; try discriminate.
  - injection Ho as <-. simpl. rewrite length_replicate. auto.
  - destruct (fs !! src_path s) as [[d|x]|]; try discriminate.
    destruct (negb (rs =? "nearest")%string); [discriminate|].
    destruct (negb (bool_decide (shape im = gb_shape g))); [discriminate|].
    destruct (negb (band_ok d (src_band s))); [discriminate|].
    destruct (negb (same_crs d (crs_str (gb_crs g)))); [discriminate|].
    injection Ho as <-. simpl. rewrite length_imap. auto.
Qed.

#[export] Instance driver_laws : StorageDriverLaws.
Proof.
  constructor.
  - exact open_source_nodata.
  - exact fuse_keeps.
Qed.
End RefLaws.

(** * The properties at work on the reference backend *)

Section Instances.
Import Ref.


(** The two sample files are where the sample file system says. *)
Lemma sample_fs_a : sample_fs !! "a.tif" = Some (RasterFile sample).
Proof. reflexivity. Qed.

Lemma sample_fs_plain : sample_fs !! "plain.tif" = Some (RasterFile plain).
Proof. reflexivity. Qed.

(** The priority order on the sample files: the caller's 7 wins over the
    file's -999; without a caller value the file's -999 is used; with neither,
    0; [dc_read] fills with the file's -999, and on the file that declares
    none with its fallback 5. *)
Lemma nodata_resolution_order_witness :
  (exists dest,
     events (rio_slurp_reproject "a.tif" sample_grid None (Some 7) ∅ sample_fs)
     = [EvOpen "a.tif";
        EvReproject "a.tif" dest 7 (gb_transform sample_grid) "epsg:3857" ∅]) /\
  (exists dest,
     events (rio_slurp_reproject "a.tif" sample_grid None None ∅ sample_fs)
     = [EvOpen "a.tif";
        EvReproject "a.tif" dest (-999) (gb_transform sample_grid) "epsg:3857" ∅]) /\
  (exists dest,
     events (rio_slurp_reproject "plain.tif" sample_grid None None ∅ sample_fs)
     = [EvOpen "plain.tif";
        EvReproject "plain.tif" dest 0 (gb_transform sample_grid) "epsg:3857" ∅]) /\
  (exists dest,
     events (dc_read "a.tif" 1 (Some sample_grid) "nearest" None None (Some 5)
                     sample_fs)
     = [EvSourceOpen (mkSource "a.tif" 1 (Some 5));
        EvFuse [mkSource "a.tif" 1 (Some 5)] dest sample_grid (-999) "nearest"]) /\
  (exists dest,
     events (dc_read "plain.tif" 1 (Some sample_grid) "nearest" None None (Some 5)
                     sample_fs)
     = [EvSourceOpen (mkSource "plain.tif" 1 (Some 5));
        EvFuse [mkSource "plain.tif" 1 (Some 5)] dest sample_grid 5 "nearest"]).
Proof.
  destruct (@nodata_resolution_order backend driver RefLaws.driver_laws)
    as [Hslurp Hdc].
  repeat split.
  - edestruct (Hslurp sample_fs "a.tif" sample_grid None (Some 7) ∅)
      as (src & dt' & dest & Hfs & Hdt & Hfull & Hev); [reflexivity|].
    exists dest. exact Hev.
  - edestruct (Hslurp sample_fs "a.tif" sample_grid None None ∅)
      as (src & dt' & dest & Hfs & Hdt & Hfull & Hev); [reflexivity|].
    rewrite sample_fs_a in Hfs. injection Hfs as <-.
    exists dest. exact Hev.
  - edestruct (Hslurp sample_fs "plain.tif" sample_grid None None ∅)
      as (src & dt' & dest & Hfs & Hdt & Hfull & Hev); [reflexivity|].
    rewrite sample_fs_plain in Hfs. injection Hfs as <-.
    exists dest. exact Hev.
  - edestruct (Hdc sample_fs "a.tif" 1 (Some sample_grid) "nearest" None None
                   (Some 5))
      as (src & rdr & dest & Hfs & Hrdr & Hfull & Hev); [reflexivity|].
    rewrite sample_fs_a in Hfs. injection Hfs as <-.
    exists dest. exact Hev.
  - edestruct (Hdc sample_fs "plain.tif" 1 (Some sample_grid) "nearest" None None
                   (Some 5))
      as (src & rdr & dest & Hfs & Hrdr & Hfull & Hev); [reflexivity|].
    rewrite sample_fs_plain in Hfs. injection Hfs as <-.
    exists dest. exact Hev.
Defined.

(** C2 as stated fails for [dc_read]: [plain.tif] declares no nodata and
    the caller gives no [dst_nodata], so the claim's order ends at 0; with
    [fallback_nodata=5] the destination is filled with 5, 5 is handed on as
    [dst_nodata], and the pixels outside the raster come back as 5. *)
Lemma dc_read_fills_with_fallback :
  ds_nodata plain = None /\
  nodata_priority None (ds_nodata plain) = 0 /\
  exists dest im,
    let o := dc_read "plain.tif" 1 (Some sample_grid) "nearest" None None (Some 5)
                     sample_fs in
    events o = [EvSourceOpen (mkSource "plain.tif" 1 (Some 5));
                EvFuse [mkSource "plain.tif" 1 (Some 5)] dest sample_grid 5
                       "nearest"] /\
    data dest = replicate 12 5 /\
    res o = Ok im /\
    data im !! 0%nat = Some 5.
Proof.
  split; [reflexivity|]. split; [reflexivity|].
  eexists _, _. cbv zeta.
  split; [reflexivity|]. split; [reflexivity|]. split; reflexivity.
Qed.

(** A 1-D array is rejected, the existing [a.tif] and [overwrite=True]
    notwithstanding. *)
Lemma write_gtiff_rejects_ndim_witness :
  let o := write_gtiff "a.tif" flat_pix (VStr "epsg:3857") (10, -10) (0, 0)
                       None true None ∅ sample_fs in
  res o = Raise (ValueError "Need 2d or 3d ndarray on input") /\
  events o = [] /\
  fs_after o = sample_fs.
Proof.
  refine (write_gtiff_rejects_ndim (H := backend) sample_fs "a.tif" flat_pix
            (VStr "epsg:3857") (10, -10) (0, 0) None true None ∅ _ _);
    vm_compute; discriminate.
Defined.


(** The same call never looks at [a.tif], which stays. *)
Lemma write_gtiff_ndim_before_exists_witness :
  let o := write_gtiff "a.tif" flat_pix (VStr "epsg:3857") (10, -10) (0, 0)
                       None true None ∅ sample_fs in
  res o = Raise (ValueError "Need 2d or 3d ndarray on input") /\
  res o <> Raise (IOError "File exists") /\
  (EvExists "a.tif" ∉ events o) /\
  (EvUnlink "a.tif" ∉ events o) /\
  fs_after o !! "a.tif" = Some (RasterFile sample).
Proof.
  refine (write_gtiff_ndim_before_exists (H := backend) sample_fs "a.tif"
            (RasterFile sample) flat_pix (VStr "epsg:3857") (10, -10) (0, 0)
            None true None ∅ _ _ _).
  - reflexivity.
  - vm_compute; discriminate.
  - vm_compute; discriminate.
Defined.

(** Writing over [a.tif] without [overwrite] is refused and changes nothing. *)
Lemma write_gtiff_exists_no_overwrite_witness :
  let o := write_gtiff "a.tif" sample_pix (VStr "epsg:3857") (10, -10) (0, 0)
                       None false None ∅ sample_fs in
  res o = Raise (IOError "File exists") /\
  events o = [EvExists "a.tif"] /\
  fs_after o = sample_fs /\
  fs_after o !! "a.tif" = Some (RasterFile sample).
Proof.
  refine (write_gtiff_exists_no_overwrite (H := backend) sample_fs "a.tif"
            (RasterFile sample) sample_pix (VStr "epsg:3857") (10, -10) (0, 0)
            None None ∅ _ _).
  - left. reflexivity.
  - reflexivity.
Defined.


(** The 2 x 3 sample array is a valid array. *)
Lemma sample_pix_valid : array_valid sample_pix.
Proof.
  unfold array_valid. repeat split.
  - repeat constructor; discriminate.
  - repeat constructor.
Defined.

(** The sample array written to [b.tif], tiled, comes back from a plain read. *)
Lemma write_read_roundtrip_witness :
  let o := write_gtiff "b.tif" sample_pix (VStr "epsg:3857") (10, -10) (0, 0)
                       None false (Some 512) ∅ sample_fs in
  exists a meta',
    res (rio_slurp_read "b.tif" None ∅ (fs_after o)) = Ok (a, meta') /\
    a = sample_pix /\ data a = data sample_pix /\
    shape a = shape sample_pix /\ dtype a = dtype sample_pix.
Proof.
  refine (@write_read_roundtrip backend RefLaws.backend_laws sample_fs "b.tif"
            sample_pix (VStr "epsg:3857") (10, -10) (0, 0) None false (Some 512)
            ∅ _ sample_pix_valid eq_refl _ _).
  - repeat constructor.
  - reflexivity.
Defined.




(** The records of the three operations on the sample file system. *)
Lemma produced_gbox_consistent_witness :
  (exists a m g,
     res (rio_slurp_read "a.tif" None ∅ sample_fs) = Ok (a, m) /\
     m !! "gbox" = Some (VGeoBox g) /\ gbox_consistent m g) /\
  (exists m g,
     res (write_gtiff "b.tif" sample_pix (VStr "epsg:3857") (10, -10) (0, 0)
                      None false None ∅ sample_fs) = Ok m /\
     m !! "gbox" = Some (VGeoBox g) /\ gbox_consistent m g) /\
  (exists a m g,
     res (rio_slurp_reproject "a.tif" sample_grid None None ∅ sample_fs)
       = Ok (a, m) /\
     m !! "gbox" = Some (VGeoBox sample_grid) /\
     m !! "src_gbox" = Some (VGeoBox g) /\ gbox_consistent m g).
Proof.
  destruct (@produced_gbox_consistent backend) as (Hread & Hwrite & Hrepr).
  split; [|split].
  - eexists _, _, _. split; [reflexivity|]. split; [reflexivity|].
    eapply (Hread sample_fs "a.tif" None ∅); reflexivity.
  - eexists _, _. split; [reflexivity|]. split; [reflexivity|].
    eapply (Hwrite sample_fs "b.tif" sample_pix (VStr "epsg:3857") (10, -10)
                   (0, 0) None false None ∅); reflexivity.
  - eexists _, _, _. split; [reflexivity|].
    edestruct (Hrepr sample_fs "a.tif" sample_grid None None ∅) as [Hg Hsrc];
      [reflexivity|].
    split; [exact Hg|]. split; [reflexivity|].
    apply Hsrc. reflexivity.
Defined.







(** [blocksize=512] on a 100 x 300 image: tiles of 300 by 100. *)
Lemma write_gtiff_tiling_witness :
  exists opts,
    EvCreate "t.tif" opts
      ∈ events (write_gtiff "t.tif" wide_pix (VStr "epsg:3857") (10, -10) (0, 0)
                            None false (Some 512) ∅ sample_fs) /\
    opts !! "tiled" = Some (VBool true) /\
    opts !! "blockxsize" = Some (VInt 300) /\
    opts !! "blockysize" = Some (VInt 100).
Proof.
  destruct (@write_gtiff_tiling backend sample_fs "t.tif" wide_pix
              (VStr "epsg:3857") (10, -10) (0, 0) None false 512 ∅)
    as [Hall Hsome].
  destruct (Hsome (or_introl eq_refl) (or_introl eq_refl) eq_refl) as [opts Hin].
  exists opts. split; [exact Hin|].
  destruct (Hall opts Hin) as (h & w & Hs & Ht & Hx & Hy).
  destruct Hs as [Hs | [n Hs]]; [|discriminate Hs].
  injection Hs as <- <-. auto.
Defined.

(** C8 as stated fails: [blocksize=512] on a 100 x 300 image together with
    the extra option [blockxsize=16] hands [blockxsize=16] to the backend, not
    [min(512, 300)]. *)
Lemma write_gtiff_tiling_overridden :
  exists opts,
    EvCreate "t.tif" opts
      ∈ events (write_gtiff "t.tif" wide_pix (VStr "epsg:3857") (10, -10) (0, 0)
                            None false (Some 512)
                            {[ "blockxsize" := VInt 16 ]} sample_fs) /\
    opts !! "blockxsize" = Some (VInt 16) /\
    opts !! "blockxsize" <> Some (VInt (Z.min 512 300)).
Proof.
  eexists. split.
  - apply (write_gtiff_creates (H := backend) sample_fs "t.tif" wide_pix
             (VStr "epsg:3857") (10, -10) (0, 0) None false (Some 512)
             {[ "blockxsize" := VInt 16 ]} 1 100 300);
      [left; split; reflexivity | left; reflexivity | reflexivity].
  - split; [reflexivity|]. vm_compute. discriminate.
Qed.

(** C7 as stated fails for [rio_slurp_reproject]: reading the 2 x 3 [a.tif]
    onto the 3 x 4 grid returns a record whose [gbox] is that grid while its
    [height] is 2. *)
Lemma reproject_gbox_not_consistent :
  exists pix m,
    res (rio_slurp_reproject "a.tif" sample_grid None None ∅ sample_fs)
      = Ok (pix, m) /\
    m !! "gbox" = Some (VGeoBox sample_grid) /\
    m !! "height" = Some (VInt 2) /\
    gb_height sample_grid = 3 /\
    ~ gbox_consistent m sample_grid.
Proof.
  eexists _, _. split; [reflexivity|].
  split; [reflexivity|]. split; [reflexivity|]. split; [reflexivity|].
  intros (Hh & _). vm_compute in Hh. discriminate Hh.
Qed.
End Instances.

(** * Further properties of the module *)

(** ** The file system under the module's calls *)

Section Files.
Context `{RasterBackend} `{!StorageDriver}.

Lemma leaves_files_bind {A B} (m : M A) (k : A -> M B) :
  leaves_files m -> (forall a, leaves_files (k a)) -> leaves_files (bind m k).
Proof.
  intros Hm Hk fs. unfold bind.
  destruct (res (m fs)) as [a|e] eqn:Hr; simpl.
  - rewrite Hk. apply Hm.
  - apply Hm.
Qed.

Lemma leaves_files_const {A} (o : result A) evs :
  leaves_files (fun fs => mkOutcome o fs evs).
Proof. intros fs. reflexivity. Qed.

Lemma rasterio_open_r_leaves p : leaves_files (rasterio_open_r p).
Proof.
  intros fs. unfold rasterio_open_r. by destruct (fs !! p) as [[d|c]|].
Qed.

Lemma warp_reproject_leaves p b pix nd T c kw :
  leaves_files (warp_reproject p b pix nd T c kw).
Proof.
  unfold warp_reproject.
  destruct (kw !! "dst_nodata"), (kw !! "dst_transform"), (kw !! "dst_crs");
    first [ apply leaves_files_const
          | apply leaves_files_bind; intros; apply leaves_files_const ].
Qed.

Lemma rio_slurp_read_leaves fname out_shape kw :
  leaves_files (rio_slurp_read fname out_shape kw).
Proof.
  unfold rio_slurp_read.
  apply leaves_files_bind; [apply rasterio_open_r_leaves|]. intros src.
  apply leaves_files_bind.
  { destruct (ds_count src =? 1);
      (apply leaves_files_bind; intros; apply leaves_files_const). }
  intros a. apply leaves_files_bind; intros; apply leaves_files_const.
Qed.

Lemma rio_slurp_reproject_leaves fname gbox dt nd kw :
  leaves_files (rio_slurp_reproject fname gbox dt nd kw).
Proof.
  unfold rio_slurp_reproject.
  apply leaves_files_bind; [apply rasterio_open_r_leaves|]. intros src.
  apply leaves_files_bind.
  { destruct dt; [apply leaves_files_const|].
    destruct (ds_dtypes src); apply leaves_files_const. }
  intros dt'. apply leaves_files_bind; [apply leaves_files_const|]. intros pix.
  apply leaves_files_bind; [apply warp_reproject_leaves|]. intros out.
  apply leaves_files_bind; intros; apply leaves_files_const.
Qed.

Lemma dc_read_leaves path band gbox resampling dt nd fallback :
  leaves_files (dc_read path band gbox resampling dt nd fallback).
Proof.
  unfold dc_read.
  apply leaves_files_bind; [intros fs; reflexivity|]. intros rdr.
  apply leaves_files_bind; [apply leaves_files_const|]. intros im.
  apply leaves_files_bind; [intros fs; reflexivity|]. intros out.
  apply leaves_files_const.
Qed.

Lemma call_rio_slurp_read_leaves fname args kw :
  leaves_files (call_rio_slurp_read fname args kw).
Proof.
  unfold call_rio_slurp_read.
  destruct (bind_params _ _ _) as [[vs kw']|e]; [|apply leaves_files_const].
  destruct (param vs 1); apply rio_slurp_read_leaves.
Qed.

Lemma call_rio_slurp_reproject_leaves fname args kw m :
  call_rio_slurp_reproject fname args kw = Some m -> leaves_files m.
Proof.
  unfold call_rio_slurp_reproject.
  destruct (bind_params _ _ _) as [[vs kw']|e];
    [|intros Hm; injection Hm as <-; apply leaves_files_const].
  destruct (vs !! 1%nat) as [[g|]|];
    try (intros Hm; injection Hm as <-; apply leaves_files_const).
  destruct (as_gbox g), (as_dtype (param vs 2)), (as_nodata (param vs 3));
    try discriminate.
  intros Hm. injection Hm as <-. apply rio_slurp_reproject_leaves.
Qed.

(** X1: no read changes the file system, whether it returns or raises:
    neither [rio_slurp_read], [rio_slurp_reproject] and [dc_read] nor what
    [rio_slurp] dispatches to. *)
Theorem readers_leave_files :
  (forall fname out_shape kw, leaves_files (rio_slurp_read fname out_shape kw)) /\
  (forall fname gbox dt nd kw, leaves_files (rio_slurp_reproject fname gbox dt nd kw)) /\
  (forall path band gbox resampling dt nd fallback,
     leaves_files (dc_read path band gbox resampling dt nd fallback)) /\
  (forall fname args kw m, rio_slurp fname args kw = Some m -> leaves_files m).
Proof.
  split; [exact rio_slurp_read_leaves|].
  split; [exact rio_slurp_reproject_leaves|].
  split; [exact dc_read_leaves|].
  intros fname args kw m. unfold rio_slurp.
  destruct args as [|a args].
  - destruct (kw !! "gbox").
    + apply call_rio_slurp_reproject_leaves.
    + intros Hm. injection Hm as <-. apply call_rio_slurp_read_leaves.
  - destruct a; try (intros Hm; injection Hm as <-; apply call_rio_slurp_read_leaves).
    apply call_rio_slurp_reproject_leaves.
Qed.

Lemma touches_only_bind {A B} p (m : M A) (k : A -> M B) :
  touches_only p m -> (forall a, touches_only p (k a)) -> touches_only p (bind m k).
Proof.
  intros Hm Hk fs q Hq. unfold bind.
  destruct (res (m fs)) as [a|e] eqn:Hr; simpl.
  - rewrite Hk by exact Hq. by apply Hm.
  - by apply Hm.
Qed.

Lemma touches_only_leaves {A} p (m : M A) : leaves_files m -> touches_only p m.
Proof. intros Hm fs q _. by rewrite Hm. Qed.

Lemma path_unlink_touches p : touches_only p (path_unlink p).
Proof.
  intros fs q Hq. unfold path_unlink.
  destruct (fs !! p); simpl; [|reflexivity]. by apply lookup_delete_ne.
Qed.

Lemma rasterio_open_w_touches p opts : touches_only p (rasterio_open_w p opts).
Proof.
  intros fs q Hq. unfold rasterio_open_w.
  destruct (opts !! "driver"); [reflexivity|].
  destruct (ds_create opts); simpl; [by apply lookup_insert_ne|].
  destruct (ds_create_partial opts); [by apply lookup_insert_ne|reflexivity].
Qed.

Lemma dataset_write_touches p d pix band : touches_only p (dataset_write p d pix band).
Proof.
  intros fs q Hq. unfold dataset_write.
  destruct (ds_write d pix band); simpl; [|reflexivity]. by apply lookup_insert_ne.
Qed.

(** X2: [write_gtiff] changes no path but its target: every other path of
    the file system holds after the call what it held before, whether the
    call returns or raises. *)
Theorem write_gtiff_touches_only_target fs fname pix crs resolution offset nodata
        overwrite blocksize extra q :
  q <> fname ->
  fs_after (write_gtiff fname pix crs resolution offset nodata overwrite
                        blocksize extra fs) !! q = fs !! q.
Proof.
  revert fs q.
  change (touches_only fname (write_gtiff fname pix crs resolution offset nodata
                                          overwrite blocksize extra)).
  unfold write_gtiff. apply touches_only_bind.
  { apply touches_only_leaves.
    destruct (shape pix) as [|a [|b [|c [|d l]]]]; apply leaves_files_const. }
  intros [[[nbands h] w] band]. destruct resolution as [sx sy], offset as [tx ty].
  apply touches_only_bind; [apply touches_only_leaves; intros fs; reflexivity|].
  intros present. apply touches_only_bind.
  { destruct present; [destruct overwrite|];
      [apply path_unlink_touches | apply touches_only_leaves, leaves_files_const
       | apply touches_only_leaves, leaves_files_const]. }
  intros _. apply touches_only_bind; [apply rasterio_open_w_touches|].
  intros d0. apply touches_only_bind; [apply dataset_write_touches|].
  intros dst. apply touches_only_bind;
    intros; apply touches_only_leaves, leaves_files_const.
Qed.
End Files.

(** ** The writer, step by step *)

Section WriterSteps.
Context `{RasterBackend}.

(** The calls before the creation: the existence test, and the unlink when
    the path exists. *)
Lemma write_gtiff_past_checks fs fname pix crs resolution offset nodata overwrite
      blocksize extra nbands h w band :
  shape pix = [h; w] /\ nbands = 1 /\ band = BandIndex 1 \/
  shape pix = [nbands; h; w] /\ band = BandIndexes (py_range 1 (nbands + 1)) ->
  fs !! fname = None \/ overwrite = true ->
  let opts := gtiff_rio_opts w h nbands (dtype pix) crs
                (mkAffine (fst resolution) 0 (fst offset) 0
                          (snd resolution) (snd offset))
                nodata blocksize extra in
  let fs1 := delete fname fs in
  let pre := EvExists fname ::
             match fs !! fname with Some _ => [EvUnlink fname] | None => [] end in
  write_gtiff fname pix crs resolution offset nodata overwrite blocksize extra fs =
  match opts !! "driver" with
  | Some _ =>
      mkOutcome (Raise (TypeError "multiple values for keyword argument 'driver'"))
                fs1 pre
  | None =>
      match ds_create opts with
      | Raise e =>
          mkOutcome (Raise e)
            match ds_create_partial opts with
            | Some r => <[fname := partial_file r]> fs1
            | None => fs1
            end
            (pre ++ [EvCreate fname opts])
      | Ok d0 =>
          match ds_write d0 pix band with
          | Raise e =>
              mkOutcome (Raise e) (<[fname := RasterFile d0]> fs1)
                        (pre ++ [EvCreate fname opts; EvWrite fname pix band])
          | Ok dst =>
              mkOutcome
                (match rio_geobox (ds_meta dst) with
                 | Ok gbox =>
                     Ok (<["path" := VPath fname]>
                           (<["gbox" := gbox_val gbox]> (ds_meta dst)))
                 | Raise e => Raise e
                 end)
                (<[fname := RasterFile dst]> fs1)
                (pre ++ [EvCreate fname opts; EvWrite fname pix band])
          end
      end
  end.
Proof.
  intros Hs Hfree opts fs1 pre.
  destruct resolution as [sx sy], offset as [tx ty].
  unfold write_gtiff.
  assert ((match shape pix with
           | [h; w] => ret (1, h, w, BandIndex 1)
           | [nbands; h; w] =>
               ret (nbands, h, w, BandIndexes (py_range 1 (nbands + 1)))
           | _ => raise (ValueError "Need 2d or 3d ndarray on input")
           end : M (Z * Z * Z * band_sel)) fs
          = mkOutcome (Ok (nbands, h, w, band)) fs []) as Hdims.
  { destruct Hs as [(-> & -> & ->) | [-> ->]]; reflexivity. }
  rewrite (bind_run _ _ _ _ _ _ Hdims). cbv beta iota. cbn [res fs_after events app].
  assert (path_exists fname fs
          = mkOutcome (Ok (bool_decide (is_Some (fs !! fname)))) fs
                      [EvExists fname]) as Hex by reflexivity.
  rewrite (bind_run _ _ _ _ _ _ Hex). cbv beta. cbn [res fs_after events app].
  assert ((if bool_decide (is_Some (fs !! fname))
           then if overwrite then path_unlink fname
                else raise (IOError "File exists")
           else ret tt) fs
          = mkOutcome (Ok tt) fs1
              match fs !! fname with Some _ => [EvUnlink fname] | None => [] end)
    as Hchk.
  { subst fs1. unfold path_unlink.
    destruct (fs !! fname) as [f|] eqn:Hf.
    - rewrite bool_decide_eq_true_2 by eauto.
      destruct Hfree as [?| ->]; [discriminate|].
      cbv beta. rewrite Hf. reflexivity.
    - rewrite bool_decide_eq_false_2 by (intros [? ?]; discriminate).
      rewrite delete_id by exact Hf. reflexivity. }
  rewrite (bind_run _ _ _ _ _ _ Hchk). cbv beta. cbn [res fs_after events app].
  subst opts pre. cbn [fst snd].
  set (opts := gtiff_rio_opts _ _ _ _ _ _ _ _ _).
  unfold bind, rasterio_open_w, dataset_write, lift, ret.
  clear Hchk Hex Hdims Hfree.
  destruct (opts !! "driver"); [by destruct (fs !! fname)|].
  destruct (ds_create opts) as [d0|e]; [|by destruct (fs !! fname)].
  cbn [res fs_after events app].
  destruct (ds_write d0 pix band) as [dst|e]; [|by destruct (fs !! fname)].
  cbn [res fs_after events app]. rewrite insert_insert_eq.
  destruct (rio_geobox (ds_meta dst)); by destruct (fs !! fname).
Qed.

Lemma py_range_length lo hi : length (py_range lo hi) = Z.to_nat (hi - lo).
Proof. unfold py_range. by rewrite length_map, length_seq. Qed.

Lemma py_range_lookup lo hi (i : nat) :
  (i < Z.to_nat (hi - lo))%nat -> py_range lo hi !! i = Some (lo + Z.of_nat i).
Proof.
  intros Hi. unfold py_range. rewrite list_lookup_fmap.
  rewrite lookup_seq_lt by exact Hi. reflexivity.
Qed.

Lemma write_gtiff_write_event fs fname pix crs resolution offset nodata overwrite
      blocksize extra p a band :
  EvWrite p a band ∈ events (write_gtiff fname pix crs resolution offset nodata
                                         overwrite blocksize extra fs) ->
  p = fname /\ a = pix /\
  ((exists h w, shape pix = [h; w] /\ band = BandIndex 1) \/
   (exists nbands h w, shape pix = [nbands; h; w] /\
      band = BandIndexes (py_range 1 (nbands + 1)))).
Proof.
  destruct resolution as [sx sy], offset as [tx ty].
  unfold write_gtiff. intros Hin.
  apply bind_events_elem in Hin as [Hin | (dims & Hdims & Hin)].
  { destruct (shape pix) as [|x [|y [|z [|t l]]]]; simpl in Hin;
      by apply elem_of_nil in Hin. }
  assert (exists nbands h w band', dims = (nbands, h, w, band') /\
            ((exists h w, shape pix = [h; w] /\ band' = BandIndex 1) \/
             (exists nbands h w, shape pix = [nbands; h; w] /\
                band' = BandIndexes (py_range 1 (nbands + 1)))))
    as (nbands & h & w & band' & -> & Hs).
  { destruct (shape pix) as [|x [|y [|z [|t l]]]]; simpl in Hdims;
      try discriminate; injection Hdims as <-; eauto 15. }
  cbv beta iota in Hin.
  apply bind_events_elem in Hin as [Hin | (present & _ & Hin)].
  { apply list_elem_of_singleton in Hin. discriminate. }
  apply bind_events_elem in Hin as [Hin | (_ & _ & Hin)].
  { apply check_target_events in Hin. discriminate. }
  apply bind_events_elem in Hin as [Hin | (d0 & _ & Hin)].
  { apply rasterio_open_w_events in Hin. discriminate. }
  apply bind_events_elem in Hin as [Hin | (d1 & _ & Hin)].
  { apply dataset_write_events in Hin. injection Hin as -> -> ->. auto. }
  apply bind_events_elem in Hin as [Hin | (g & _ & Hin)];
    by apply elem_of_nil in Hin.
Qed.

(** X3: what [write_gtiff] writes is the array itself, to band 1 when it is
    2-D, and to the bands 1, 2, .. N in that order when it is 3-D with N
    planes. *)
Theorem write_gtiff_band_numbers fs fname pix crs resolution offset nodata
        overwrite blocksize extra p a band :
  EvWrite p a band ∈ events (write_gtiff fname pix crs resolution offset nodata
                                         overwrite blocksize extra fs) ->
  p = fname /\ a = pix /\
  (ndim pix = 2%nat -> band = BandIndex 1) /\
  (ndim pix = 3%nat ->
   exists nbands l,
     head (shape pix) = Some nbands /\ band = BandIndexes l /\
     length l = Z.to_nat nbands /\
     forall i, (i < Z.to_nat nbands)%nat -> l !! i = Some (Z.of_nat i + 1)).
Proof.
  intros Hin. apply write_gtiff_write_event in Hin as (-> & -> & Hs).
  repeat split; unfold ndim.
  - destruct Hs as [(h & w & Hs & ->) | (n & h & w & Hs & _)];
      rewrite Hs; [reflexivity|discriminate].
  - destruct Hs as [(h & w & Hs & _) | (n & h & w & Hs & ->)];
      rewrite Hs; [discriminate|]. intros _.
    exists n, (py_range 1 (n + 1)). rewrite py_range_length.
    replace (n + 1 - 1) with n by lia. repeat split.
    intros i Hi. rewrite py_range_lookup by (replace (n + 1 - 1) with n by lia; lia).
    f_equal. lia.
Qed.

(** X4: past its two checks, whenever the backend creates the file and
    accepts the write, the target holds the dataset just written, whatever
    it held before; the calls made are the existence test, the unlink of an
    existing target, the creation and the write, in this order.  The call
    returns the record when the normalizer accepts the new file's metadata
    and raises the normalizer's exception when it does not; the file is
    written in both cases. *)
Theorem write_gtiff_replaces_target fs fname pix crs
        resolution offset nodata overwrite blocksize extra nbands h w band d0 dst :
  shape pix = [h; w] /\ nbands = 1 /\ band = BandIndex 1 \/
  shape pix = [nbands; h; w] /\ band = BandIndexes (py_range 1 (nbands + 1)) ->
  fs !! fname = None \/ overwrite = true ->
  extra !! "driver" = None ->
  let opts := gtiff_rio_opts w h nbands (dtype pix) crs
                (mkAffine (fst resolution) 0 (fst offset) 0
                          (snd resolution) (snd offset))
                nodata blocksize extra in
  ds_create opts = Ok d0 ->
  ds_write d0 pix band = Ok dst ->
  let o := write_gtiff fname pix crs resolution offset nodata overwrite
                       blocksize extra fs in
  res o = match rio_geobox (ds_meta dst) with
          | Ok gbox =>
              Ok (<["path" := VPath fname]> (<["gbox" := gbox_val gbox]> (ds_meta dst)))
          | Raise e => Raise e
          end /\
  fs_after o = <[fname := RasterFile dst]> (delete fname fs) /\
  fs_after o !! fname = Some (RasterFile dst) /\
  events o = EvExists fname ::
             match fs !! fname with Some _ => [EvUnlink fname] | None => [] end
             ++ [EvCreate fname opts; EvWrite fname pix band].
Proof.
  intros Hs Hfree Hdrv opts Hd0 Hdst o. subst o.
  rewrite (write_gtiff_past_checks _ _ _ _ _ _ _ _ _ _ nbands h w band Hs Hfree).
  cbv zeta. fold opts.
  assert (opts !! "driver" = None) as -> by (by apply gtiff_rio_opts_driver).
  rewrite Hd0, Hdst. cbn [res fs_after events].
  rewrite lookup_insert_eq. auto.
Qed.

(** X5: with [overwrite=True] the existing target is unlinked before the
    backend is asked for anything: when the creation then fails, the call
    raises the backend's error after the existence test, the unlink and the
    creation, and the old file is not put back.  The path then holds what
    the failing creation left there, a new file or nothing, whatever the
    old file was. *)
Theorem write_gtiff_overwrite_unlinks_first fs fname f pix crs resolution offset
        nodata blocksize extra nbands h w band e :
  shape pix = [h; w] /\ nbands = 1 /\ band = BandIndex 1 \/
  shape pix = [nbands; h; w] /\ band = BandIndexes (py_range 1 (nbands + 1)) ->
  fs !! fname = Some f ->
  extra !! "driver" = None ->
  let opts := gtiff_rio_opts w h nbands (dtype pix) crs
                (mkAffine (fst resolution) 0 (fst offset) 0
                          (snd resolution) (snd offset))
                nodata blocksize extra in
  ds_create opts = Raise e ->
  let o := write_gtiff fname pix crs resolution offset nodata true blocksize
                       extra fs in
  res o = Raise e /\
  events o = [EvExists fname; EvUnlink fname; EvCreate fname opts] /\
  fs_after o = match ds_create_partial opts with
               | Some r => <[fname := partial_file r]> (delete fname fs)
               | None => delete fname fs
               end /\
  fs_after o !! fname = partial_file <$> ds_create_partial opts.
Proof.
  intros Hs Hf Hdrv opts He o. subst o.
  rewrite (write_gtiff_past_checks _ _ _ _ _ _ _ _ _ _ nbands h w band Hs
             (or_intror eq_refl)).
  cbv zeta. fold opts.
  assert (opts !! "driver" = None) as -> by (by apply gtiff_rio_opts_driver).
  rewrite He, Hf. cbn [res fs_after events app].
  repeat split.
  destruct (ds_create_partial opts); simpl;
    [apply lookup_insert_eq | apply lookup_delete_eq].
Qed.

(** X6: a [driver] among the extra options is a [TypeError] of the call to
    the backend's [open]: the backend creates and writes nothing.  The
    checks have run by then, so an existing target is already unlinked when
    [overwrite] is set. *)
Theorem write_gtiff_driver_given_twice fs fname pix crs resolution offset nodata
        overwrite blocksize extra v :
  ndim pix = 2%nat \/ ndim pix = 3%nat ->
  fs !! fname = None \/ overwrite = true ->
  extra !! "driver" = Some v ->
  write_gtiff fname pix crs resolution offset nodata overwrite blocksize extra fs =
  mkOutcome (Raise (TypeError "multiple values for keyword argument 'driver'"))
            (delete fname fs)
            (EvExists fname ::
             match fs !! fname with Some _ => [EvUnlink fname] | None => [] end).
Proof.
  intros Hd Hfree Hdrv. unfold ndim in Hd.
  destruct (shape pix) as [|x [|y [|z [|t l]]]] eqn:Hs; simpl in Hd;
    try (destruct Hd; discriminate).
  - rewrite (write_gtiff_past_checks _ _ _ _ _ _ _ _ _ _ 1 x y (BandIndex 1));
      [|auto|exact Hfree].
    cbv zeta. by rewrite gtiff_rio_opts_lookup, Hdrv.
  - rewrite (write_gtiff_past_checks _ _ _ _ _ _ _ _ _ _ x y z
               (BandIndexes (py_range 1 (x + 1)))); [|auto|exact Hfree].
    cbv zeta. by rewrite gtiff_rio_opts_lookup, Hdrv.
Qed.

(** X7: the options of the creation.  Size, band count and dtype come from
    the array (a 3-D array is bands x height x width), CRS and transform
    [Affine(sx, 0, tx, 0, sy, ty)] from the arguments, compression is DEFLATE
    with predictor 2; [nodata] is passed only when given and the tiling
    options only when a block size is given.  An extra option of the same
    name replaces any of them. *)
Theorem write_gtiff_creation_options fs fname pix crs resolution offset nodata
        overwrite blocksize extra opts :
  EvCreate fname opts ∈ events (write_gtiff fname pix crs resolution offset
                                  nodata overwrite blocksize extra fs) ->
  exists nbands h w,
    (shape pix = [h; w] /\ nbands = 1 \/ shape pix = [nbands; h; w]) /\
    opts !! "width" = overridden extra "width" (Some (VInt w)) /\
    opts !! "height" = overridden extra "height" (Some (VInt h)) /\
    opts !! "count" = overridden extra "count" (Some (VInt nbands)) /\
    opts !! "dtype" = overridden extra "dtype" (Some (VStr (dtype pix))) /\
    opts !! "crs" = overridden extra "crs" (Some crs) /\
    opts !! "transform" =
      overridden extra "transform"
        (Some (VAffine (mkAffine (fst resolution) 0 (fst offset)
                                 0 (snd resolution) (snd offset)))) /\
    opts !! "predictor" = overridden extra "predictor" (Some (VInt 2)) /\
    opts !! "compress" = overridden extra "compress" (Some (VStr "DEFLATE")) /\
    opts !! "nodata" = overridden extra "nodata" (VInt <$> nodata) /\
    (blocksize = None ->
     opts !! "tiled" = extra !! "tiled" /\
     opts !! "blockxsize" = extra !! "blockxsize" /\
     opts !! "blockysize" = extra !! "blockysize").
Proof.
  intros Hin.
  apply write_gtiff_create_opts in Hin as (nbands & h & w & Hs & _ & ->).
  exists nbands, h, w. split; [exact Hs|].
  unfold overridden. rewrite !(gtiff_rio_opts_lookup _ _ _ _ _ _ _ _ extra).
  repeat split; try (intros ->);
    (match goal with |- context [extra !! ?k] => destruct (extra !! k) end;
     [reflexivity|]);
    unfold gtiff_rio_opts; rewrite (left_id_L ∅ (∪));
    destruct nodata; try destruct blocksize;
    repeat (rewrite lookup_insert_ne by discriminate);
    first [apply lookup_insert_eq | apply lookup_empty].
Qed.
End WriterSteps.

(** ** The readers, step by step *)

Section ReaderSteps.
Context `{RasterBackend} `{!StorageDriver}.

(** X8: a [dst_transform] or [dst_crs] among the pass-through keywords of
    [rio_slurp_reproject] meets the same keyword set by the function: the
    call to the reprojection is a [TypeError].  The file has been opened by
    then and the destination allocated; the backend reprojects nothing.
    ([dst_nodata] is a parameter of the function and never among them.) *)
Theorem rio_slurp_reproject_keyword_clash fs fname gbox dt dst_nodata kw src dt' dest :
  fs !! fname = Some (RasterFile src) ->
  reproject_dtype src dt = Some dt' ->
  np_full (gb_shape gbox) (nodata_priority dst_nodata (ds_nodata src)) dt' = Ok dest ->
  is_Some (kw !! "dst_transform") \/ is_Some (kw !! "dst_crs") ->
  rio_slurp_reproject fname gbox dt dst_nodata kw fs =
  mkOutcome (Raise (TypeError "multiple values for keyword argument")) fs
            [EvOpen fname].
Proof.
  intros Hfs Hdt Hdest Hkw. unfold rio_slurp_reproject.
  rewrite (bind_run _ _ _ _ _ _ (rasterio_open_r_run _ _ _ Hfs)).
  cbv beta. cbn [res fs_after events app].
  assert ((match dt with
           | None => match ds_dtypes src with
                     | d :: _ => ret d
                     | [] => raise (IndexError "tuple index out of range")
                     end
           | Some d => ret d
           end) fs = mkOutcome (Ok dt') fs []) as Hstep.
  { destruct dt as [d|]; simpl in Hdt; [by injection Hdt as ->|].
    destruct (ds_dtypes src) as [|d l]; simpl in Hdt; [discriminate|].
    by injection Hdt as ->. }
  rewrite (bind_run _ _ _ _ _ _ Hstep). cbv beta. cbn [res fs_after events app].
  rewrite !nodata_resolved.
  assert (lift (np_full (gb_shape gbox)
                  (nodata_priority dst_nodata (ds_nodata src)) dt') fs
          = mkOutcome (Ok dest) fs []) as Hfull by (by rewrite lift_run, Hdest).
  rewrite (bind_run _ _ _ _ _ _ Hfull). cbv beta. cbn [res fs_after events app].
  unfold bind, warp_reproject.
  destruct Hkw as [[v Hv] | [v Hv]]; rewrite Hv;
    repeat (match goal with |- context [kw !! ?k] => destruct (kw !! k) end);
    reflexivity.
Qed.

(** X9: a backend error of the read or of the reprojection comes out of the
    slurp readers as it is, after the calls made so far; nothing is retried
    and the file system is as before. *)
Theorem backend_errors_propagate fs fname src e :
  fs !! fname = Some (RasterFile src) ->
  (forall out_shape kw,
     ds_read src (read_selection src) (read_keywords out_shape kw) = Raise e ->
     rio_slurp_read fname out_shape kw fs =
     mkOutcome (Raise e) fs
       [EvOpen fname;
        EvRead fname (read_selection src) (read_keywords out_shape kw)]) /\
  (forall gbox dt dst_nodata kw dt' dest,
     reproject_dtype src dt = Some dt' ->
     np_full (gb_shape gbox) (nodata_priority dst_nodata (ds_nodata src)) dt'
       = Ok dest ->
     kw !! "dst_nodata" = None -> kw !! "dst_transform" = None ->
     kw !! "dst_crs" = None ->
     ds_reproject src 1 dest (nodata_priority dst_nodata (ds_nodata src))
                  (gb_transform gbox) (crs_str (gb_crs gbox)) kw = Raise e ->
     rio_slurp_reproject fname gbox dt dst_nodata kw fs =
     mkOutcome (Raise e) fs
       [EvOpen fname;
        EvReproject fname dest (nodata_priority dst_nodata (ds_nodata src))
                    (gb_transform gbox) (crs_str (gb_crs gbox)) kw]).
Proof.
  intros Hfs. split.
  - intros out_shape kw Hread.
    unfold rio_slurp_read. fold (read_keywords out_shape kw).
    rewrite (bind_run _ _ _ _ _ _ (rasterio_open_r_run _ _ _ Hfs)).
    cbv beta. cbn [res fs_after events app].
    unfold bind, read_selection in *.
    destruct (ds_count src =? 1); rewrite dataset_read_run, Hread; reflexivity.
  - intros gbox dt nd kw dt' dest Hdt Hdest K1 K2 K3 Hrep.
    unfold rio_slurp_reproject.
    rewrite (bind_run _ _ _ _ _ _ (rasterio_open_r_run _ _ _ Hfs)).
    cbv beta. cbn [res fs_after events app].
    assert ((match dt with
             | None => match ds_dtypes src with
                       | d :: _ => ret d
                       | [] => raise (IndexError "tuple index out of range")
                       end
             | Some d => ret d
             end) fs = mkOutcome (Ok dt') fs []) as Hstep.
    { destruct dt as [d|]; simpl in Hdt; [by injection Hdt as ->|].
      destruct (ds_dtypes src) as [|d l]; simpl in Hdt; [discriminate|].
      by injection Hdt as ->. }
    rewrite (bind_run _ _ _ _ _ _ Hstep). cbv beta. cbn [res fs_after events app].
    rewrite !nodata_resolved.
    assert (lift (np_full (gb_shape gbox)
                    (nodata_priority nd (ds_nodata src)) dt') fs
            = mkOutcome (Ok dest) fs []) as Hfull by (by rewrite lift_run, Hdest).
    rewrite (bind_run _ _ _ _ _ _ Hfull). cbv beta. cbn [res fs_after events app].
    unfold bind, warp_reproject. rewrite K1, K2, K3.
    unfold bind, emit, lift. cbn [res fs_after events app fst snd].
    rewrite Hrep. reflexivity.
Qed.

(** X10: the dtype of a reprojecting read is the caller's when given, the
    source's otherwise: [src.dtypes[0]] for [rio_slurp_reproject], the
    reader's dtype for [dc_read]. *)
Theorem reproject_dtype_resolution `{!RasterBackendLaws} `{!StorageDriverLaws} :
  (forall fs fname gbox dt dst_nodata kw pix m,
     res (rio_slurp_reproject fname gbox dt dst_nodata kw fs) = Ok (pix, m) ->
     exists src,
       fs !! fname = Some (RasterFile src) /\
       match dt with
       | Some d => dtype pix = d
       | None => head (ds_dtypes src) = Some (dtype pix)
       end) /\
  (forall fs path band gbox resampling dt dst_nodata fallback im,
     res (dc_read path band gbox resampling dt dst_nodata fallback fs) = Ok im ->
     exists rdr,
       source_open fs (mkSource path band fallback) = Ok rdr /\
       dtype im = match dt with
                  | Some d => d
                  | None => rdr_dtype rdr
                  end).
Proof.
  split.
  - intros fs fname gbox dt nd kw pix m Hr.
    apply rio_slurp_reproject_ok in Hr
      as (src & dt' & dest & og & Hfs & Hdt & Hdest & Hout & _).
    exists src. split; [exact Hfs|].
    apply np_full_ok in Hdest as (Hd & _).
    apply reproject_inplace in Hout as (Hd' & _).
    rewrite Hd', Hd. destruct dt as [d|]; simpl in Hdt; [by injection Hdt|exact Hdt].
  - intros fs path band gbox resampling dt nd fallback im Hr.
    apply dc_read_ok in Hr as (rdr & dest & Hrdr & Hdest & Hout & _).
    exists rdr. split; [exact Hrdr|].
    apply np_full_ok in Hdest as (Hd & _).
    apply fuse_inplace in Hout as (Hd' & _).
    rewrite Hd', Hd. by destruct dt.
Qed.

(** X11: without a grid, [dc_read] reads onto the source's own grid: the
    array returned has the shape of the reader's grid descriptor, and the
    destination handed to the driver was allocated for it. *)
Theorem dc_read_default_grid `{!StorageDriverLaws} fs path band resampling dt
        dst_nodata fallback im :
  res (dc_read path band None resampling dt dst_nodata fallback fs) = Ok im ->
  exists rdr dest nd,
    source_open fs (mkSource path band fallback) = Ok rdr /\
    shape im = gb_shape (rdr_geobox rdr) /\
    events (dc_read path band None resampling dt dst_nodata fallback fs) =
      [EvSourceOpen (mkSource path band fallback);
       EvFuse [mkSource path band fallback] dest (rdr_geobox rdr) nd resampling] /\
    shape dest = gb_shape (rdr_geobox rdr).
Proof.
  intros Hr.
  apply dc_read_ok in Hr as (rdr & dest & Hrdr & Hdest & Hout & Hev).
  simpl in Hdest, Hout, Hev.
  exists rdr, dest, (nodata_priority dst_nodata (rdr_nodata rdr)).
  apply np_full_ok in Hdest as (_ & Hs & _).
  apply fuse_inplace in Hout as (_ & Hs' & _).
  rewrite Hs', Hs. auto.
Qed.

(** X12: the record a call returns is the backend's metadata with the
    module's own entries set on top: [gbox] and [path] (and [src_gbox] for
    the reprojecting read).  [path] is the file name, a [Path] from
    [write_gtiff] and the caller's own value from the readers; every other
    entry is the backend's. *)
Theorem records_extend_backend_meta :
  (forall fs fname out_shape kw a m,
     res (rio_slurp_read fname out_shape kw fs) = Ok (a, m) ->
     exists src,
       fs !! fname = Some (RasterFile src) /\
       m !! "path" = Some (VStr fname) /\
       forall k, k <> "path" -> k <> "gbox" -> m !! k = ds_meta src !! k) /\
  (forall fs fname gbox dt nd kw a m,
     res (rio_slurp_reproject fname gbox dt nd kw fs) = Ok (a, m) ->
     exists src,
       fs !! fname = Some (RasterFile src) /\
       m !! "path" = Some (VStr fname) /\
       forall k, k <> "path" -> k <> "gbox" -> k <> "src_gbox" ->
                 m !! k = ds_meta src !! k) /\
  (forall fs fname pix crs resolution offset nodata overwrite blocksize extra m,
     let o := write_gtiff fname pix crs resolution offset nodata overwrite
                          blocksize extra fs in
     res o = Ok m ->
     exists dst,
       fs_after o !! fname = Some (RasterFile dst) /\
       m !! "path" = Some (VPath fname) /\
       forall k, k <> "path" -> k <> "gbox" -> m !! k = ds_meta dst !! k).
Proof.
  split; [|split].
  - intros fs fname out_shape kw a m Hr.
    apply rio_slurp_read_ok in Hr as (src & og & Hfs & _ & _ & -> & _).
    exists src. split; [exact Hfs|]. split; [apply lookup_insert_eq|].
    intros k K1 K2. by rewrite !lookup_insert_ne.
  - intros fs fname gbox dt nd kw a m Hr.
    apply rio_slurp_reproject_ok in Hr
      as (src & dt' & dest & og & Hfs & _ & _ & _ & _ & -> & _).
    exists src. split; [exact Hfs|]. split.
    + rewrite lookup_insert_ne by discriminate. apply lookup_insert_eq.
    + intros k K1 K2 K3. by rewrite !lookup_insert_ne.
  - intros fs fname pix crs resolution offset nodata overwrite blocksize extra m
           o Hr. subst o.
    apply write_gtiff_ok in Hr
      as (nbands & h & w & band & d0 & dst & og & _ & _ & _ & _ & -> & Hfile).
    exists dst. split; [exact Hfile|]. split; [apply lookup_insert_eq|].
    intros k K1 K2. by rewrite !lookup_insert_ne.
Qed.

(** X13: what [write_gtiff] reports about the file it wrote is what a later
    [rio_slurp_read] of that file reports: the two records agree on every
    entry but [path], the grid descriptor included. *)
Theorem write_then_read_same_metadata fs fname pix crs resolution offset nodata
        overwrite blocksize extra mw out_shape kw a mr :
  let o := write_gtiff fname pix crs resolution offset nodata overwrite
                       blocksize extra fs in
  res o = Ok mw ->
  res (rio_slurp_read fname out_shape kw (fs_after o)) = Ok (a, mr) ->
  mr !! "gbox" = mw !! "gbox" /\
  (forall k, k <> "path" -> mr !! k = mw !! k) /\
  mw !! "path" = Some (VPath fname) /\ mr !! "path" = Some (VStr fname).
Proof.
  intros o Hw Hr. subst o.
  apply write_gtiff_ok in Hw
    as (nbands & h & w & band & d0 & dst & og & _ & _ & _ & Hog & -> & Hfile).
  apply rio_slurp_read_ok in Hr as (src & og' & Hfs & _ & Hog' & -> & _).
  rewrite Hfile in Hfs. injection Hfs as <-.
  rewrite Hog in Hog'. injection Hog' as <-.
  assert (forall k, k <> "path" ->
            <["path" := VStr fname]> (<["gbox" := gbox_val og]> (ds_meta dst)) !! k
            = <["path" := VPath fname]> (<["gbox" := gbox_val og]> (ds_meta dst)) !! k)
    as Hsame.
  { intros k Hk. by rewrite !(lookup_insert_ne _ "path"). }
  split; [apply Hsame; discriminate|].
  split; [exact Hsame|].
  split; apply lookup_insert_eq.
Qed.
End ReaderSteps.

(** ** The normalizer off the backend's mappings *)

Section NormalizerEdges.

(** X14: with [crs] and [transform] present, [rio_geobox] reads [height],
    then [width], then asks the CRS whether it is an EPSG code: a mapping
    without [height] is a [KeyError] for [height], one without [width] a
    [KeyError] for [width], and a [crs] entry that is no CRS object, [None]
    for one, is an [AttributeError]. *)
Theorem rio_geobox_errors (meta : pydict) vcrs vt :
  meta !! "crs" = Some vcrs ->
  meta !! "transform" = Some vt ->
  (meta !! "height" = None -> rio_geobox meta = Raise (KeyError "height")) /\
  (is_Some (meta !! "height") -> meta !! "width" = None ->
   rio_geobox meta = Raise (KeyError "width")) /\
  (is_Some (meta !! "height") -> is_Some (meta !! "width") ->
   (forall c, vcrs <> VRioCrs c) ->
   rio_geobox meta = Raise (AttributeError "is_epsg_code")).
Proof.
  intros Hc Ht. unfold rio_geobox. rewrite Hc, Ht. repeat split.
  - by intros ->.
  - by intros [vh ->] ->.
  - intros [vh ->] [vw ->] Hn. destruct vcrs; try reflexivity.
    by destruct (Hn c).
Qed.

(** X15: EPSG codes stay apart: two backend CRSs that are EPSG codes
    normalize to the same CRS only when their codes are equal. *)
Theorem dc_crs_from_rio_epsg_inj (c1 c2 : RioCRS) (n1 n2 : Z) :
  is_epsg_code c1 = true -> to_epsg c1 = Some n1 ->
  is_epsg_code c2 = true -> to_epsg c2 = Some n2 ->
  dc_crs_from_rio c1 = dc_crs_from_rio c2 -> n1 = n2.
Proof.
  unfold dc_crs_from_rio, py_format. intros -> -> -> -> Heq.
  cbn [String.append] in Heq. injection Heq as Heq.
  exact (inj (pretty : Z -> string) n1 n2 Heq).
Qed.
End NormalizerEdges.

(** ** The dispatcher *)

Section Dispatch.
Context `{RasterBackend}.

Lemma rio_slurp_read_events fname out_shape kw fs ev :
  ev ∈ events (rio_slurp_read fname out_shape kw fs) ->
  ev = EvOpen fname \/ exists indexes kw', ev = EvRead fname indexes kw'.
Proof.
  unfold rio_slurp_read. intros Hin.
  apply bind_events_elem in Hin as [Hin | (src & _ & Hin)].
  { left. unfold rasterio_open_r in Hin.
    destruct (fs !! fname) as [[d|c]|]; by apply list_elem_of_singleton in Hin. }
  apply bind_events_elem in Hin as [Hin | (a & _ & Hin)].
  { right. destruct (ds_count src =? 1); rewrite dataset_read_run in Hin;
      apply list_elem_of_singleton in Hin; eauto. }
  apply bind_events_elem in Hin as [Hin | (g & _ & Hin)];
    by apply elem_of_nil in Hin.
Qed.

Lemma call_rio_slurp_read_events fname args kw fs ev :
  ev ∈ events (call_rio_slurp_read fname args kw fs) ->
  ev = EvOpen fname \/ exists indexes kw', ev = EvRead fname indexes kw'.
Proof.
  unfold call_rio_slurp_read.
  destruct (bind_params _ _ _) as [[vs kw']|e];
    [|intros Hin; by apply elem_of_nil in Hin].
  destruct (param vs 1); apply rio_slurp_read_events.
Qed.

(** X16: [rio_slurp] without a grid is the plain read: with no argument
    but the file name, and with the output shape given by position or by
    keyword, it is [rio_slurp_read] of the same arguments. *)
Theorem rio_slurp_plain_read fname (kw : pydict) :
  kw !! "fname" = None -> kw !! "gbox" = None -> kw !! "out_shape" = None ->
  rio_slurp fname [] kw = Some (rio_slurp_read fname None kw) /\
  rio_slurp fname [VNone] kw = Some (rio_slurp_read fname None kw) /\
  (forall s,
     rio_slurp fname [VShape s] kw = Some (rio_slurp_read fname (Some s) kw) /\
     rio_slurp fname [] (<["out_shape" := VShape s]> kw)
       = Some (rio_slurp_read fname (Some s) kw)).
Proof.
  intros Kf Kg Ko. unfold rio_slurp, call_rio_slurp_read, param.
  rewrite Kg. simpl. rewrite Kf, Ko. simpl.
  rewrite (delete_id kw "out_shape") by exact Ko.
  repeat split.
  rewrite (lookup_insert_ne kw "out_shape") by discriminate.
  rewrite Kg. simpl.
  rewrite (lookup_insert_ne kw "out_shape") by discriminate.
  rewrite Kf, lookup_insert_eq. simpl.
  rewrite delete_insert_eq, (delete_id kw "out_shape") by exact Ko.
  reflexivity.
Qed.

(** X17: [rio_slurp] with a grid is the reprojecting read, the grid being
    the first positional argument or the [gbox] keyword, and [dtype] and
    [dst_nodata] following by position or by keyword. *)
Theorem rio_slurp_reprojects fname (kw : pydict) g :
  kw !! "fname" = None -> kw !! "gbox" = None ->
  kw !! "dtype" = None -> kw !! "dst_nodata" = None ->
  rio_slurp fname [VGeoBox g] kw = Some (rio_slurp_reproject fname g None None kw) /\
  (forall dt nd,
     rio_slurp fname [VGeoBox g; dtype_val dt; nodata_val nd] kw
       = Some (rio_slurp_reproject fname g dt nd kw) /\
     rio_slurp fname []
       (<["gbox" := VGeoBox g]> (<["dtype" := dtype_val dt]> (
        <["dst_nodata" := nodata_val nd]> kw)))
       = Some (rio_slurp_reproject fname g dt nd kw)).
Proof.
  intros Kf Kg Kd Kn.
  assert (delete "dst_nodata" (delete "dtype" kw) = kw) as Hdel.
  { rewrite (delete_id kw "dtype") by exact Kd. by apply delete_id. }
  split; [|intros dt nd; split].
  - unfold rio_slurp, call_rio_slurp_reproject, param. simpl.
    rewrite Kf, Kg. simpl. rewrite Hdel, Kd.
    rewrite lookup_delete_ne by discriminate. rewrite Kn. reflexivity.
  - unfold rio_slurp, call_rio_slurp_reproject, param. simpl.
    rewrite Kf, Kg, Kd, Kn. simpl.
    by destruct dt, nd.
  - unfold rio_slurp, call_rio_slurp_reproject, param.
    rewrite lookup_insert_eq. simpl.
    rewrite !lookup_insert_ne by discriminate. rewrite Kf.
    rewrite lookup_insert_eq. simpl.
    rewrite delete_insert_eq.
    rewrite (delete_id _ "gbox")
      by (by rewrite !lookup_insert_ne by discriminate).
    rewrite lookup_insert_eq, delete_insert_eq.
    rewrite (delete_id _ "dtype") by (by rewrite lookup_insert_ne by discriminate).
    rewrite lookup_insert_eq, delete_insert_eq.
    rewrite (delete_id kw "dst_nodata") by exact Kn.
    by destruct dt, nd.
Qed.

(** X18: a [gbox] keyword is honoured only when there is no positional
    argument.  With a first positional argument that is not a grid
    descriptor [rio_slurp] takes the plain read, whatever the keywords: the
    only calls that leave the module are the opening of the file and the
    read of its bands, and nothing is reprojected. *)
Theorem rio_slurp_positional_decides fname a args (kw : pydict) :
  (forall g, a <> VGeoBox g) ->
  exists m,
    rio_slurp fname (a :: args) kw = Some m /\
    forall fs ev, ev ∈ events (m fs) ->
      ev = EvOpen fname \/ exists indexes kw', ev = EvRead fname indexes kw'.
Proof.
  intros Ha. exists (call_rio_slurp_read fname (a :: args) kw). split.
  - unfold rio_slurp. destruct a; try reflexivity. by destruct (Ha g).
  - intros fs ev. apply call_rio_slurp_read_events.
Qed.

(** X19: calls that do not fit the readers' parameters are [TypeError]s
    raised before anything leaves the module: a grid given both by position
    and by keyword, more than one positional argument for the plain read,
    and more than three for the reprojecting read. *)
Theorem rio_slurp_bad_calls fname (kw : pydict) fs :
  kw !! "fname" = None ->
  (forall g args m,
     is_Some (kw !! "gbox") ->
     rio_slurp fname (VGeoBox g :: args) kw = Some m ->
     m fs = mkOutcome (Raise (TypeError "multiple values for argument")) fs []) /\
  (forall a b args m,
     (forall g, a <> VGeoBox g) -> kw !! "out_shape" = None ->
     rio_slurp fname (a :: b :: args) kw = Some m ->
     m fs = mkOutcome (Raise (TypeError "too many positional arguments")) fs []) /\
  (forall g a b c args m,
     kw !! "gbox" = None -> kw !! "dtype" = None -> kw !! "dst_nodata" = None ->
     rio_slurp fname (VGeoBox g :: a :: b :: c :: args) kw = Some m ->
     m fs = mkOutcome (Raise (TypeError "too many positional arguments")) fs []).
Proof.
  intros Kf. repeat split.
  - intros g args m [v Kg]. unfold rio_slurp, call_rio_slurp_reproject. simpl.
    rewrite Kf, Kg. intros Hm. by injection Hm as <-.
  - intros a b args m Ha Ko.
    assert (rio_slurp fname (a :: b :: args) kw
            = Some (call_rio_slurp_read fname (a :: b :: args) kw)) as ->.
    { unfold rio_slurp. destruct a; try reflexivity. by destruct (Ha g). }
    intros Hm. injection Hm as <-.
    unfold call_rio_slurp_read. simpl. rewrite Kf, Ko. reflexivity.
  - intros g a b c args m Kg Kd Kn. unfold rio_slurp, call_rio_slurp_reproject.
    simpl. rewrite Kf, Kg, Kd, Kn. intros Hm. by injection Hm as <-.
Qed.
End Dispatch.

(** * Further instances

    The properties of the later sections at the reference backend and the
    sample files. *)

Section MoreInstances.
Import Ref.

(** After a plain read and after a dispatched reprojecting read the sample
    files are as before. *)
Lemma readers_leave_files_witness :
  fs_after (rio_slurp_read "a.tif" None ∅ sample_fs) = sample_fs /\
  exists m, rio_slurp "a.tif" [VGeoBox sample_grid] ∅ = Some m /\
            fs_after (m sample_fs) = sample_fs.
Proof.
  destruct (@readers_leave_files backend driver) as (Hread & _ & _ & Hslurp).
  split; [apply Hread|].
  exists (rio_slurp_reproject "a.tif" sample_grid None None ∅).
  split; [reflexivity|].
  exact (Hslurp "a.tif" [VGeoBox sample_grid] ∅ _ eq_refl sample_fs).
Defined.

(** Writing [b.tif] leaves [a.tif] alone. *)
Lemma write_gtiff_touches_only_target_witness :
  fs_after (write_gtiff "b.tif" sample_pix (VStr "epsg:3857") (10, -10) (0, 0)
                        None false None ∅ sample_fs) !! "a.tif"
  = sample_fs !! "a.tif".
Proof.
  apply (write_gtiff_touches_only_target (H := backend)). discriminate.
Defined.

(** The write of the 3-D sample reaches the backend. *)
Lemma cube_written :
  EvWrite "c.tif" cube_pix (BandIndexes [1; 2])
    ∈ events (write_gtiff "c.tif" cube_pix (VStr "epsg:3857") (10, -10) (0, 0)
                          None false None ∅ sample_fs).
Proof. vm_compute. do 2 apply list_elem_of_further. apply list_elem_of_here. Qed.

(** The two planes of the 3-D sample go to bands 1 and 2. *)
Lemma write_gtiff_band_numbers_witness :
  "c.tif" = "c.tif" /\ cube_pix = cube_pix /\
  (ndim cube_pix = 2%nat -> BandIndexes [1; 2] = BandIndex 1) /\
  (ndim cube_pix = 3%nat ->
   exists nbands l,
     head (shape cube_pix) = Some nbands /\ BandIndexes [1; 2] = BandIndexes l /\
     length l = Z.to_nat nbands /\
     forall i, (i < Z.to_nat nbands)%nat -> l !! i = Some (Z.of_nat i + 1)).
Proof.
  exact (write_gtiff_band_numbers (H := backend) _ _ _ _ _ _ _ _ _ _ _ _ _
           cube_written).
Defined.

(** Overwriting [a.tif] with the sample array and no CRS: the calls are the
    existence test, the unlink, the creation and the write, the target holds
    the new raster, and the call raises all the same, the normalizer
    refusing the metadata of a raster without CRS. *)
Lemma write_gtiff_replaces_target_witness :
  let opts := gtiff_rio_opts 3 2 1 "int16" VNone (mkAffine 10 0 0 0 (-10) 0)
                None None ∅ in
  let o := write_gtiff "a.tif" sample_pix VNone (10, -10) (0, 0)
                       None true None ∅ sample_fs in
  res o = Raise (AttributeError "is_epsg_code") /\
  fs_after o = <["a.tif" := RasterFile bare]> (delete "a.tif" sample_fs) /\
  fs_after o !! "a.tif" = Some (RasterFile bare) /\
  events o = [EvExists "a.tif"; EvUnlink "a.tif"; EvCreate "a.tif" opts;
              EvWrite "a.tif" sample_pix (BandIndex 1)].
Proof.
  exact (write_gtiff_replaces_target (H := backend)
           sample_fs "a.tif" sample_pix VNone (10, -10) (0, 0)
           None true None ∅ 1 2 3 (BandIndex 1)
           (mkDataset "int16" None 3 2 None (mkAffine 10 0 0 0 (-10) 0)
                      [[0; 0; 0; 0; 0; 0]])
           bare
           (or_introl (conj eq_refl (conj eq_refl eq_refl)))
           (or_intror eq_refl) (lookup_empty _) eq_refl eq_refl).
Defined.

(** Overwriting [a.tif] with a CRS the backend refuses: the call raises the
    backend's error, the old raster is gone and the path holds the header
    the failed creation left. *)
Lemma write_gtiff_overwrite_unlinks_first_witness :
  let opts := gtiff_rio_opts 3 2 1 "int16" (VInt 5) (mkAffine 10 0 0 0 (-10) 0)
                None None ∅ in
  let o := write_gtiff "a.tif" sample_pix (VInt 5) (10, -10) (0, 0) None true
                       None ∅ sample_fs in
  res o = Raise (RasterioError "invalid CRS") /\
  events o = [EvExists "a.tif"; EvUnlink "a.tif"; EvCreate "a.tif" opts] /\
  fs_after o = <["a.tif" := OtherFile "GeoTIFF header"]>
                 (delete "a.tif" sample_fs) /\
  fs_after o !! "a.tif" = Some (OtherFile "GeoTIFF header").
Proof.
  exact (write_gtiff_overwrite_unlinks_first (H := backend) sample_fs "a.tif"
           (RasterFile sample) sample_pix (VInt 5) (10, -10) (0, 0) None None ∅
           1 2 3 (BandIndex 1) (RasterioError "invalid CRS")
           (or_introl (conj eq_refl (conj eq_refl eq_refl)))
           eq_refl (lookup_empty _) eq_refl).
Defined.

(** A [driver] among the extra options: nothing is created, but [a.tif] has
    been unlinked. *)
Lemma write_gtiff_driver_given_twice_witness :
  write_gtiff "a.tif" sample_pix (VStr "epsg:3857") (10, -10) (0, 0) None true
              None {[ "driver" := VStr "PNG" ]} sample_fs =
  mkOutcome (Raise (TypeError "multiple values for keyword argument 'driver'"))
            (delete "a.tif" sample_fs) [EvExists "a.tif"; EvUnlink "a.tif"].
Proof.
  exact (write_gtiff_driver_given_twice (H := backend) sample_fs "a.tif" sample_pix
           (VStr "epsg:3857") (10, -10) (0, 0) None true None
           {[ "driver" := VStr "PNG" ]} (VStr "PNG")
           (or_introl eq_refl) (or_intror eq_refl) eq_refl).
Defined.

(** The options of writing the sample array with nodata -1. *)
Lemma write_gtiff_creation_options_witness :
  exists opts,
    EvCreate "b.tif" opts
      ∈ events (write_gtiff "b.tif" sample_pix (VStr "epsg:3857") (10, -10) (5, 7)
                            (Some (-1)) false None ∅ sample_fs) /\
    opts !! "width" = Some (VInt 3) /\ opts !! "height" = Some (VInt 2) /\
    opts !! "count" = Some (VInt 1) /\ opts !! "dtype" = Some (VStr "int16") /\
    opts !! "transform" = Some (VAffine (mkAffine 10 0 5 0 (-10) 7)) /\
    opts !! "nodata" = Some (VInt (-1)) /\ opts !! "tiled" = None.
Proof.
  eexists. split.
  - apply (write_gtiff_creates (H := backend) sample_fs "b.tif" sample_pix
             (VStr "epsg:3857") (10, -10) (5, 7) (Some (-1)) false None ∅ 1 2 3);
      [left; split; reflexivity | left; reflexivity | reflexivity].
  - destruct (write_gtiff_creation_options (H := backend) sample_fs "b.tif"
                sample_pix (VStr "epsg:3857") (10, -10) (5, 7) (Some (-1)) false
                None ∅ _
                (write_gtiff_creates (H := backend) sample_fs "b.tif" sample_pix
                   (VStr "epsg:3857") (10, -10) (5, 7) (Some (-1)) false None ∅
                   1 2 3 (or_introl (conj eq_refl eq_refl)) (or_introl eq_refl)
                   (lookup_empty _)))
      as (n & h & w & Hs & Hw & Hh & Hc & Hd & _ & Ht & _ & _ & Hn & Htile).
    destruct Hs as [[Hs ->] | Hs]; [|discriminate Hs]. injection Hs as <- <-.
    destruct (Htile eq_refl) as (Htiled & _).
    repeat split; assumption.
Defined.

(** A [dst_crs] keyword on top of the grid's CRS. *)
Lemma rio_slurp_reproject_keyword_clash_witness :
  rio_slurp_reproject "a.tif" sample_grid None None
                      {[ "dst_crs" := VStr "epsg:4326" ]} sample_fs =
  mkOutcome (Raise (TypeError "multiple values for keyword argument")) sample_fs
            [EvOpen "a.tif"].
Proof.
  refine (rio_slurp_reproject_keyword_clash (H := backend) sample_fs "a.tif"
            sample_grid None None {[ "dst_crs" := VStr "epsg:4326" ]} sample
            "int16" _ sample_fs_a eq_refl eq_refl (or_intror _)).
  exists (VStr "epsg:4326"). reflexivity.
Defined.

(** The reference backend knows no [masked] keyword and no other CRS than
    the file's: its errors come out of the readers. *)
Lemma backend_errors_propagate_witness :
  rio_slurp_read "a.tif" None {[ "masked" := VBool true ]} sample_fs =
    mkOutcome (Raise (TypeError "unexpected keyword argument")) sample_fs
      [EvOpen "a.tif"; EvRead "a.tif" (Some 1) {[ "masked" := VBool true ]}] /\
  exists dest,
    rio_slurp_reproject "a.tif"
      (mkGeoBox 4 3 (mkAffine 10 0 (-10) 0 (-10) 10) (mkCRS "epsg:4326"))
      None None ∅ sample_fs =
    mkOutcome (Raise (RasterioError "CRS transformation not supported")) sample_fs
      [EvOpen "a.tif";
       EvReproject "a.tif" dest (-999) (mkAffine 10 0 (-10) 0 (-10) 10)
                   "epsg:4326" ∅].
Proof.
  destruct (backend_errors_propagate (H := backend) sample_fs "a.tif" sample
              (RasterioError "CRS transformation not supported") sample_fs_a)
    as [_ Hrep].
  destruct (backend_errors_propagate (H := backend) sample_fs "a.tif" sample
              (TypeError "unexpected keyword argument") sample_fs_a)
    as [Hread _].
  split.
  - exact (Hread None {[ "masked" := VBool true ]} eq_refl).
  - eexists.
    exact (Hrep (mkGeoBox 4 3 (mkAffine 10 0 (-10) 0 (-10) 10) (mkCRS "epsg:4326"))
                None None ∅ "int16" _ eq_refl eq_refl
                (lookup_empty _) (lookup_empty _) (lookup_empty _) eq_refl).
Defined.

(** The sample raster read onto the sample grid as [uint8], and read by
    [dc_read] with its own dtype. *)
Lemma reproject_dtype_resolution_witness :
  (exists pix m,
     res (rio_slurp_reproject "a.tif" sample_grid (Some "uint8") (Some 0) ∅
                              sample_fs) = Ok (pix, m) /\
     dtype pix = "uint8") /\
  (exists im,
     res (dc_read "a.tif" 1 (Some sample_grid) "nearest" None None None sample_fs)
       = Ok im /\
     dtype im = "int16").
Proof.
  destruct (@reproject_dtype_resolution backend driver RefLaws.backend_laws
              RefLaws.driver_laws) as [Hslurp Hdc].
  split.
  - eexists _, _. split; [reflexivity|].
    edestruct (Hslurp sample_fs "a.tif" sample_grid (Some "uint8") (Some 0) ∅)
      as (src & _ & Hd); [reflexivity|]. exact Hd.
  - eexists. split; [reflexivity|].
    edestruct (Hdc sample_fs "a.tif" 1 (Some sample_grid) "nearest" None None None)
      as (rdr & Hrdr & Hd); [reflexivity|].
    injection Hrdr as <-. exact Hd.
Defined.

(** [dc_read] of the sample raster without a grid: 2 x 3, the raster's own
    shape. *)
Lemma dc_read_default_grid_witness :
  exists im,
    res (dc_read "a.tif" 1 None "nearest" None None None sample_fs) = Ok im /\
    shape im = [2; 3].
Proof.
  eexists. split; [reflexivity|].
  edestruct (@dc_read_default_grid backend driver RefLaws.driver_laws sample_fs
               "a.tif" 1 "nearest" None None None)
    as (rdr & dest & nd & Hrdr & Hs & _); [reflexivity|].
  injection Hrdr as <-. exact Hs.
Defined.

(** The record of a plain read of [a.tif]: the path and the backend's own
    [dtype] entry. *)
Lemma records_extend_backend_meta_witness :
  exists a m,
    res (rio_slurp_read "a.tif" None ∅ sample_fs) = Ok (a, m) /\
    m !! "path" = Some (VStr "a.tif") /\
    m !! "dtype" = Some (VStr "int16").
Proof.
  destruct (@records_extend_backend_meta backend) as (Hread & _ & _).
  eexists _, _. split; [reflexivity|].
  edestruct (Hread sample_fs "a.tif" None ∅) as (src & Hfs & Hp & Hk);
    [reflexivity|].
  rewrite sample_fs_a in Hfs. injection Hfs as <-.
  split; [exact Hp|]. rewrite Hk by discriminate. reflexivity.
Defined.

(** Writing the sample array to [b.tif] and reading it back. *)
Lemma write_then_read_same_metadata_witness :
  exists mw a mr,
    let o := write_gtiff "b.tif" sample_pix (VStr "epsg:3857") (10, -10) (0, 0)
                         None false None ∅ sample_fs in
    res o = Ok mw /\
    res (rio_slurp_read "b.tif" None ∅ (fs_after o)) = Ok (a, mr) /\
    mr !! "gbox" = mw !! "gbox" /\
    (forall k, k <> "path" -> mr !! k = mw !! k) /\
    mw !! "path" = Some (VPath "b.tif") /\ mr !! "path" = Some (VStr "b.tif").
Proof.
  eexists _, _, _. cbv zeta.
  split; [reflexivity|]. split; [reflexivity|].
  eapply (write_then_read_same_metadata (H := backend) sample_fs "b.tif" sample_pix
            (VStr "epsg:3857") (10, -10) (0, 0) None false None ∅ _ None ∅);
    reflexivity.
Defined.

(** A mapping whose [crs] is [None]. *)
Lemma rio_geobox_errors_witness :
  rio_geobox (<["crs" := VNone]> (<["transform" := VAffine (mkAffine 1 0 0 0 1 0)]> (
              <["height" := VInt 2]> (<["width" := VInt 3]> ∅))))
  = Raise (AttributeError "is_epsg_code").
Proof.
  refine (proj2 (proj2 (rio_geobox_errors
            (<["crs" := VNone]> (<["transform" := VAffine (mkAffine 1 0 0 0 1 0)]> (
              <["height" := VInt 2]> (<["width" := VInt 3]> ∅))))
            VNone (VAffine (mkAffine 1 0 0 0 1 0)) eq_refl eq_refl)) _ _ _).
  - exists (VInt 2). reflexivity.
  - exists (VInt 3). reflexivity.
  - discriminate.
Defined.

(** Two EPSG CRSs with the code 3857 and different texts. *)
Lemma dc_crs_from_rio_epsg_inj_witness :
  dc_crs_from_rio (mkRioCRS true (Some 3857) "EPSG:3857")
    = dc_crs_from_rio (mkRioCRS true (Some 3857) "") /\
  3857 = 3857.
Proof.
  split; [reflexivity|].
  exact (dc_crs_from_rio_epsg_inj (mkRioCRS true (Some 3857) "EPSG:3857")
           (mkRioCRS true (Some 3857) "") 3857 3857 eq_refl eq_refl eq_refl
           eq_refl eq_refl).
Defined.

(** The dispatcher with no keywords. *)
Lemma rio_slurp_plain_read_witness :
  rio_slurp "a.tif" [] ∅ = Some (rio_slurp_read "a.tif" None ∅) /\
  rio_slurp "a.tif" [VNone] ∅ = Some (rio_slurp_read "a.tif" None ∅) /\
  (forall s,
     rio_slurp "a.tif" [VShape s] ∅ = Some (rio_slurp_read "a.tif" (Some s) ∅) /\
     rio_slurp "a.tif" [] (<["out_shape" := VShape s]> ∅)
       = Some (rio_slurp_read "a.tif" (Some s) ∅)).
Proof.
  exact (rio_slurp_plain_read (H := backend) "a.tif" ∅
           (lookup_empty _) (lookup_empty _) (lookup_empty _)).
Defined.

(** The dispatcher with the sample grid and no keywords. *)
Lemma rio_slurp_reprojects_witness :
  rio_slurp "a.tif" [VGeoBox sample_grid] ∅
    = Some (rio_slurp_reproject "a.tif" sample_grid None None ∅) /\
  (forall dt nd,
     rio_slurp "a.tif" [VGeoBox sample_grid; dtype_val dt; nodata_val nd] ∅
       = Some (rio_slurp_reproject "a.tif" sample_grid dt nd ∅) /\
     rio_slurp "a.tif" []
       (<["gbox" := VGeoBox sample_grid]> (<["dtype" := dtype_val dt]> (
        <["dst_nodata" := nodata_val nd]> ∅)))
       = Some (rio_slurp_reproject "a.tif" sample_grid dt nd ∅)).
Proof.
  exact (rio_slurp_reprojects (H := backend) "a.tif" ∅ sample_grid
           (lookup_empty _) (lookup_empty _) (lookup_empty _) (lookup_empty _)).
Defined.

(** An output shape by position and a grid by keyword: a plain read. *)
Lemma rio_slurp_positional_decides_witness :
  exists m,
    rio_slurp "a.tif" [VShape [1; 2]] {[ "gbox" := VGeoBox sample_grid ]} = Some m /\
    forall fs ev, ev ∈ events (m fs) ->
      ev = EvOpen "a.tif" \/ exists indexes kw', ev = EvRead "a.tif" indexes kw'.
Proof.
  apply (rio_slurp_positional_decides (H := backend)). discriminate.
Defined.

(** A grid given twice. *)
Lemma rio_slurp_bad_calls_witness :
  exists m,
    rio_slurp "a.tif" [VGeoBox sample_grid] {[ "gbox" := VGeoBox sample_grid ]}
      = Some m /\
    m sample_fs
      = mkOutcome (Raise (TypeError "multiple values for argument")) sample_fs [].
Proof.
  eexists. split; [reflexivity|].
  destruct (rio_slurp_bad_calls (H := backend) "a.tif"
              {[ "gbox" := VGeoBox sample_grid ]} sample_fs ltac:(by apply lookup_singleton_ne))
    as (Htwice & _ & _).
  refine (Htwice sample_grid [] _ _ eq_refl).
  exists (VGeoBox sample_grid). apply lookup_singleton_eq.
Defined.
End MoreInstances.
